(** * Session orchestration of the diabetes risk predictor front end

    A shallow embedding of the React components that validate the health
    metrics, call the scoring service and feed the dependent views:

    - [LegacyIndex]: the single-page form (text-valued fields);
    - [PredictionForm], [Index]: the tabbed application's form and page state;
    - [DetailedAnalysis], [WhatIfAnalysis], [PredictionHistory],
      [RiskAssessment]: the dependent views.

    JavaScript numbers are IEEE 754 binary64 values, embedded as Rocq's
    primitive floats.  Component state is threaded explicitly; what a handler
    asks of its environment (a network request, a toast, a call of a callback
    prop) is logged as a list of effects.  An [async] handler is split at its
    [await]: the part that runs up to the request and the continuation that
    runs when the request settles. *)

From stdpp Require Import base list strings pretty.
From Stdlib Require Import ZArith Lia Uint63 PrimFloat FloatOps SpecFloat FloatAxioms.

Set Warnings "-inexact-float".
Set Default Proof Using "Type".
Local Open Scope string_scope.
Local Open Scope list_scope.
Local Open Scope Z_scope.

(** ** JavaScript numbers *)

Module JS.

Abbreviation number := float (only parsing).

(** [ToBoolean] on a number: [NaN], [+0] and [-0] are falsy. *)
Definition truthy (x : number) : bool := negb (is_nan x || is_zero x).

(** [!x] on a number. *)
Definition not (x : number) : bool := negb (truthy x).

(** [x || d] on numbers. *)
Definition or (x d : number) : number := if truthy x then x else d.

Definition lt (x y : number) : bool := (x <? y)%float.
Definition gt (x y : number) : bool := (y <? x)%float.

(** [x !== y] on numbers: [NaN] differs from everything, [-0] equals [+0]. *)
Definition strict_ne (x y : number) : bool := negb (x =? y)%float.

(** A length or an index as a number (exact below [2^53]). *)
Definition of_nat (n : nat) : number := of_uint63 (Uint63.of_Z (Z.of_nat n)).

(** [!s] on a string. *)
Definition not_str (s : string) : bool := bool_decide (s = "").

(** *** [Number.prototype.toFixed] *)

(** The text of a number.  At magnitudes of [1e21] and more [toFixed] falls
    back to the exponent notation of [Number::toString]; its digits are not
    expanded here, the sign and the magnitude are kept. *)
Inductive text :=
  | Plain (s : string)
  | Exponent (negative : bool) (magnitude : number).

(** The integer [n] for which [n / 10^f - m * 2^e] is closest to zero, the
    larger one when two are as close. *)
Definition nearest (m : positive) (e : Z) (f : nat) : Z :=
  if 0 <=? e then Z.pos m * 2 ^ e * 10 ^ Z.of_nat f
  else (2 * Z.pos m * 10 ^ Z.of_nat f + 2 ^ (- e)) / 2 ^ (- e + 1).

Fixpoint zeros (n : nat) : string :=
  match n with
  | O => ""
  | S n => "0" +:+ zeros n
  end.

(** Steps 10.b-10.d of [toFixed]: left-pad to [f + 1] digits and put the
    point before the last [f] of them. *)
Definition point (m : string) (f : nat) : string :=
  match f with
  | O => m
  | _ =>
      let k := String.length m in
      let m := if decide (k <= f)%nat then zeros (f + 1 - k)%nat +:+ m else m in
      let k := String.length m in
      String.substring 0 (k - f)%nat m +:+ "." +:+ String.substring (k - f)%nat f m
  end.

Definition toFixed (x : number) (f : nat) : text :=
  match Prim2SF x with
  | S754_nan => Plain "NaN"
  | S754_infinity s => Plain (if s then "-Infinity" else "Infinity")
  | S754_zero _ => Plain (point "0" f)
  | S754_finite s m e =>
      if (1e21 <=? abs x)%float then Exponent s (abs x)
      else Plain ((if s then "-" else "") +:+
                  point (pretty (Z.to_N (nearest m e f))) f)
  end.

(** [lo <= x && x <= hi]. *)
Definition within (lo hi x : number) : bool := (lo <=? x)%float && (x <=? hi)%float.

(** [s || d] on strings. *)
Definition or_str (s d : string) : string := if not_str s then d else s.

(** *** Strings

    A string is read as its sequence of code units, all below 256. *)

(** White space and line terminators among those code units. *)
Definition is_space (c : Ascii.ascii) : bool :=
  let n := Ascii.nat_of_ascii c in
  ((9 <=? n)%nat && (n <=? 13)%nat) || (n =? 32)%nat || (n =? 160)%nat.

(** [!s.trim()]: trimming leaves nothing exactly when every code unit is
    white space. *)
Fixpoint blank (s : string) : bool :=
  match s with
  | EmptyString => true
  | String c s => is_space c && blank s
  end.

Fixpoint drop (n : nat) (s : string) : string :=
  match n, s with
  | O, _ => s
  | S n, EmptyString => EmptyString
  | S n, String _ s => drop n s
  end.

(** [s.split(sep)] for a separator that is not empty: [skip] counts the code
    units of a separator just found that are still to be passed over. *)
Fixpoint split_from (sep : string) (skip : nat) (s : string) : list string :=
  match s with
  | EmptyString => [""]
  | String c rest =>
      match skip with
      | S k => split_from sep k rest
      | O =>
          if String.prefix sep s
          then "" :: split_from sep (String.length sep - 1) rest
          else match split_from sep 0 rest with
               | piece :: pieces => String c piece :: pieces
               | [] => [String c ""]
               end
      end
  end.

Definition split (sep s : string) : list string := split_from sep 0 s.

(** [pieces.join(sep)]. *)
Fixpoint join (sep : string) (pieces : list string) : string :=
  match pieces with
  | [] => ""
  | [piece] => piece
  | piece :: pieces => piece +:+ sep +:+ join sep pieces
  end.

(** [s.replace(pattern, by)] for a pattern string: the first occurrence,
    if there is one, is replaced. *)
Fixpoint replace (pattern by_ s : string) : string :=
  match s with
  | EmptyString => if not_str pattern then by_ else ""
  | String c rest =>
      if String.prefix pattern s then by_ +:+ drop (String.length pattern) s
      else String c (replace pattern by_ rest)
  end.

End JS.

(** The built-ins of the host the components call.  [parseFloat] and
    [parseInt] read a number off the front of a string ([NaN] when there is
    none); how [Date] shows a time depends on the locale. *)
Class Host := {
  parseFloat : string -> JS.number;
  parseInt : string -> JS.number;
  toLocaleTimeString : string -> string;
}.

(** ** Data exchanged with the scoring service *)

(** [PredictionData] of [pages/Index]. *)
Record PredictionData := mkPredictionData {
  Pregnancies : JS.number;
  Glucose : JS.number;
  BloodPressure : JS.number;
  BMI : JS.number;
  Age : JS.number;
}.

(** The names the form's five inputs carry. *)
Definition field_names : list string :=
  ["Pregnancies"; "Glucose"; "BloodPressure"; "BMI"; "Age"].

(** [d[name]] for the name of a field. *)
Definition field (name : string) (d : PredictionData) : option JS.number :=
  if decide (name = "Pregnancies") then Some (Pregnancies d)
  else if decide (name = "Glucose") then Some (Glucose d)
  else if decide (name = "BloodPressure") then Some (BloodPressure d)
  else if decide (name = "BMI") then Some (BMI d)
  else if decide (name = "Age") then Some (Age d)
  else None.

(** [{ ...prev, [name]: v }] for the name of a field.  In the code a name
    outside the five adds a property to the object, which is then sent along
    with the five; the record has no place for it, so for such a name only
    the five fields, which stay as they are, are accounted for.  The inputs
    of the form carry the five names and no other. *)
Definition set_field (name : string) (v : JS.number) (prev : PredictionData)
  : PredictionData :=
  if decide (name = "Pregnancies") then
    {| Pregnancies := v; Glucose := Glucose prev; BloodPressure := BloodPressure prev;
       BMI := BMI prev; Age := Age prev |}
  else if decide (name = "Glucose") then
    {| Pregnancies := Pregnancies prev; Glucose := v; BloodPressure := BloodPressure prev;
       BMI := BMI prev; Age := Age prev |}
  else if decide (name = "BloodPressure") then
    {| Pregnancies := Pregnancies prev; Glucose := Glucose prev; BloodPressure := v;
       BMI := BMI prev; Age := Age prev |}
  else if decide (name = "BMI") then
    {| Pregnancies := Pregnancies prev; Glucose := Glucose prev;
       BloodPressure := BloodPressure prev; BMI := v; Age := Age prev |}
  else if decide (name = "Age") then
    {| Pregnancies := Pregnancies prev; Glucose := Glucose prev;
       BloodPressure := BloodPressure prev; BMI := BMI prev; Age := v |}
  else prev.

Definition API_BASE_URL : string := "http://127.0.0.1:8000".

Record Request := {
  url : string;
  method : string;
  headers : list (string * string);
  body : option PredictionData;
}.

Definition post (path : string) (data : PredictionData) : Request :=
  {| url := API_BASE_URL +:+ path; method := "POST";
     headers := [("Content-Type", "application/json")]; body := Some data |}.

(** What a [catch] clause receives: an [Error] with its message, or a value
    that is not an [Error]. *)
Inductive Thrown :=
  | ErrorObj (message : string)
  | NotAnError.

(** A response: its [ok] flag and what [response.json()] gives, the decoded
    body or a throw. *)
Record Response (A : Type) := {
  ok : bool;
  json : Thrown + A;
}.
Arguments ok {A} _.
Arguments json {A} _.

(** How [await fetch(...)] settles: a rejection or a response. *)
Definition Settled (A : Type) : Type := Thrown + Response A.

Definition succeeded {A} (data : A) : Settled A :=
  inr {| ok := true; json := inr data |}.

(** ** Effects and the handler monad *)

Record ToastMsg := {
  title : string;
  description : string;
  variant : option string;
}.

Inductive Effect :=
  | Toast (t : ToastMsg)
  | Fetch (r : Request)
  | OnPredictionComplete (d : PredictionData).

(** A handler over component state [S]: the result, the next state and the
    effects in the order they were asked for. *)
Definition M (S A : Type) : Type := S -> A * S * list Effect.

Definition ret {S A} (a : A) : M S A := fun s => (a, s, []).

Definition bind {S A B} (m : M S A) (k : A -> M S B) : M S B :=
  fun s => let '(a, s1, e1) := m s in
           let '(b, s2, e2) := k a s1 in
           (b, s2, e1 ++ e2).

Definition get {S} : M S S := fun s => (s, s, []).
Definition modify {S} (f : S -> S) : M S unit := fun s => (tt, f s, []).
Definition emit {S} (e : Effect) : M S unit := fun s => (tt, s, [e]).

Notation "x <- m ;; k" := (bind m (fun x => k))
  (at level 100, m at next level, right associativity).
Notation "m ;; k" := (bind m (fun _ => k))
  (at level 100, right associativity).

Definition toast {S} (t : ToastMsg) : M S unit := emit (Toast t).
Definition fetch {S} (r : Request) : M S unit := emit (Fetch r).

Definition state_of {S A} (r : A * S * list Effect) : S := snd (fst r).
Definition value_of {S A} (r : A * S * list Effect) : A := fst (fst r).
Definition effects_of {S A} (r : A * S * list Effect) : list Effect := snd r.

(** The requests among a handler's effects. *)
Definition requests (es : list Effect) : list Request :=
  omap (fun e => match e with Fetch r => Some r | _ => None end) es.

Definition toasts (es : list Effect) : list ToastMsg :=
  omap (fun e => match e with Toast t => Some t | _ => None end) es.

(** [err instanceof Error ? err.message : fallback]. *)
Definition message_or (err : Thrown) (fallback : string) : string :=
  match err with
  | ErrorObj m => m
  | NotAnError => fallback
  end.

(** The [try] block's way through a settled request: a rejection, a response
    that is not [ok] (the handler throws [not_ok]) or a body that does not
    decode end in the [catch] clause. *)
Definition attempt {A} (not_ok : string) (r : Settled A) : Thrown + A :=
  match r with
  | inl err => inl err
  | inr response =>
      if negb (ok response) then inl (ErrorObj not_ok) else json response
  end.

(** ** The tabbed page: [Index] *)

Module Index.

(** [refreshTrigger] counts completed predictions; as a JavaScript number it
    is exact below [2^53], far beyond any session. *)
Record State := {
  currentPrediction : option PredictionData;
  refreshTrigger : Z;
}.

Definition initial : State :=
  {| currentPrediction := None; refreshTrigger := 0 |}.

Definition setCurrentPrediction (d : option PredictionData) : M State unit :=
  modify (fun s => {| currentPrediction := d; refreshTrigger := refreshTrigger s |}).

Definition setRefreshTrigger (f : Z -> Z) : M State unit :=
  modify (fun s => {| currentPrediction := currentPrediction s;
                      refreshTrigger := f (refreshTrigger s) |}).

Definition handlePredictionComplete (data : PredictionData) : M State unit :=
  setCurrentPrediction (Some data) ;;
  setRefreshTrigger (fun prev => prev + 1).

End Index.

(** ** The form of the tabbed page: [PredictionForm] *)

Module PredictionForm.

Record PredictionResult := {
  prediction : string;
  probability : JS.number;
  risk_score : JS.number;
  confidence_level : string;
}.

Record State := {
  formData : PredictionData;
  loading : bool;
  result : option PredictionResult;
  error : string;
}.

Definition zeroData : PredictionData :=
  {| Pregnancies := 0; Glucose := 0; BloodPressure := 0; BMI := 0; Age := 0 |}.

Definition initial : State :=
  {| formData := zeroData; loading := false; result := None; error := "" |}.

Definition setFormData (f : PredictionData -> PredictionData) : M State unit :=
  modify (fun s => {| formData := f (formData s); loading := loading s;
                      result := result s; error := error s |}).

Definition setLoading (b : bool) : M State unit :=
  modify (fun s => {| formData := formData s; loading := b;
                      result := result s; error := error s |}).

Definition setResult (r : option PredictionResult) : M State unit :=
  modify (fun s => {| formData := formData s; loading := loading s;
                      result := r; error := error s |}).

Definition with_error (e : string) (s : State) : State :=
  {| formData := formData s; loading := loading s; result := result s; error := e |}.

Definition setError (e : string) : M State unit := modify (with_error e).

Definition handleInputChange `{Host} (name value : string) : M State unit :=
  setFormData (fun prev => set_field name (JS.or (parseFloat value) 0) prev) ;;
  setError "".

Definition validateForm : M State bool :=
  s <- get ;;
  let formData := formData s in
  if JS.not (Pregnancies formData) && JS.strict_ne (Pregnancies formData) 0 then
    setError "All fields are required" ;; ret false
  else if JS.lt (Pregnancies formData) 0 || JS.gt (Pregnancies formData) 20 then
    setError "Pregnancies must be between 0 and 20" ;; ret false
  else if JS.lt (Glucose formData) 0 || JS.gt (Glucose formData) 300 then
    setError "Glucose must be between 0 and 300 mg/dL" ;; ret false
  else if JS.lt (BloodPressure formData) 0 || JS.gt (BloodPressure formData) 200 then
    setError "Blood Pressure must be between 0 and 200 mmHg" ;; ret false
  else if JS.lt (BMI formData) 10 || JS.gt (BMI formData) 70 then
    setError "BMI must be between 10 and 70" ;; ret false
  else if JS.lt (Age formData) 1 || JS.gt (Age formData) 120 then
    setError "Age must be between 1 and 120" ;; ret false
  else ret true.

(** [handleSubmit] up to [await fetch(...)]. *)
Definition handleSubmit : M State unit :=
  valid <- validateForm ;;
  if negb valid then ret tt
  else
    s <- get ;;
    setLoading true ;;
    setError "" ;;
    setResult None ;;
    fetch (post "/predict" (formData s)).

(** [handleSubmit] from the settling of the request on; [formData] is the
    value the handler closed over when it was called. *)
Definition handleSubmit_settled (formData : PredictionData)
    (r : Settled PredictionResult) : M State unit :=
  match attempt "Failed to get prediction" r with
  | inr data =>
      setResult (Some data) ;;
      emit (OnPredictionComplete formData) ;;
      toast {| title := "Prediction Complete";
               description :=
                 if decide (prediction data = "Diabetic")
                 then "Risk detected. Please consult a healthcare professional."
                 else "Low risk detected. Continue healthy habits!";
               variant := None |}
  | inl err =>
      let errorMessage := message_or err "Failed to connect to API" in
      setError errorMessage ;;
      toast {| title := "Error"; description := errorMessage;
               variant := Some "destructive" |}
  end ;;
  setLoading false.

Definition resetForm : M State unit :=
  setFormData (fun _ => zeroData) ;;
  setResult None ;;
  setError "".

End PredictionForm.

(** ** The single-page form: [LegacyIndex] *)

Module LegacyIndex.

Record PredictionData := {
  Pregnancies : string;
  Glucose : string;
  BloodPressure : string;
  BMI : string;
  Age : string;
}.

Record PredictionResult := { diabetic : bool }.

Record State := {
  formData : PredictionData;
  loading : bool;
  result : option PredictionResult;
  error : string;
}.

Definition emptyData : PredictionData :=
  {| Pregnancies := ""; Glucose := ""; BloodPressure := ""; BMI := ""; Age := "" |}.

Definition initial : State :=
  {| formData := emptyData; loading := false; result := None; error := "" |}.

Definition setFormData (f : PredictionData -> PredictionData) : M State unit :=
  modify (fun s => {| formData := f (formData s); loading := loading s;
                      result := result s; error := error s |}).

Definition setLoading (b : bool) : M State unit :=
  modify (fun s => {| formData := formData s; loading := b;
                      result := result s; error := error s |}).

Definition setResult (r : option PredictionResult) : M State unit :=
  modify (fun s => {| formData := formData s; loading := loading s;
                      result := r; error := error s |}).

Definition with_error (e : string) (s : State) : State :=
  {| formData := formData s; loading := loading s; result := result s; error := e |}.

Definition setError (e : string) : M State unit := modify (with_error e).

Definition set_text (name value : string) (prev : PredictionData) : PredictionData :=
  if decide (name = "Pregnancies") then
    {| Pregnancies := value; Glucose := Glucose prev;
       BloodPressure := BloodPressure prev; BMI := BMI prev; Age := Age prev |}
  else if decide (name = "Glucose") then
    {| Pregnancies := Pregnancies prev; Glucose := value;
       BloodPressure := BloodPressure prev; BMI := BMI prev; Age := Age prev |}
  else if decide (name = "BloodPressure") then
    {| Pregnancies := Pregnancies prev; Glucose := Glucose prev;
       BloodPressure := value; BMI := BMI prev; Age := Age prev |}
  else if decide (name = "BMI") then
    {| Pregnancies := Pregnancies prev; Glucose := Glucose prev;
       BloodPressure := BloodPressure prev; BMI := value; Age := Age prev |}
  else if decide (name = "Age") then
    {| Pregnancies := Pregnancies prev; Glucose := Glucose prev;
       BloodPressure := BloodPressure prev; BMI := BMI prev; Age := value |}
  else prev.

Definition handleInputChange (name value : string) : M State unit :=
  setFormData (set_text name value) ;;
  setError "".

Section WithHost.
Context `{Host}.

Definition validateForm : M State bool :=
  s <- get ;;
  let formData := formData s in
  if JS.not_str (Pregnancies formData) || JS.not_str (Glucose formData)
     || JS.not_str (BloodPressure formData) || JS.not_str (BMI formData)
     || JS.not_str (Age formData) then
    setError "All fields are required" ;; ret false
  else
    let pregnancies := parseInt (Pregnancies formData) in
    let glucose := parseFloat (Glucose formData) in
    let bloodPressure := parseFloat (BloodPressure formData) in
    let bmi := parseFloat (BMI formData) in
    let age := parseInt (Age formData) in
    if JS.lt pregnancies 0 || JS.gt pregnancies 20 then
      setError "Pregnancies must be between 0 and 20" ;; ret false
    else if JS.lt glucose 0 || JS.gt glucose 300 then
      setError "Glucose must be between 0 and 300 mg/dL" ;; ret false
    else if JS.lt bloodPressure 0 || JS.gt bloodPressure 200 then
      setError "Blood Pressure must be between 0 and 200 mmHg" ;; ret false
    else if JS.lt bmi 10 || JS.gt bmi 70 then
      setError "BMI must be between 10 and 70" ;; ret false
    else if JS.lt age 1 || JS.gt age 120 then
      setError "Age must be between 1 and 120" ;; ret false
    else ret true.

(** [handleSubmit] up to [await fetch(...)]. *)
Definition handleSubmit : M State unit :=
  valid <- validateForm ;;
  if negb valid then ret tt
  else
    s <- get ;;
    let formData := formData s in
    setLoading true ;;
    setError "" ;;
    setResult None ;;
    fetch (post "/predict"
             (mkPredictionData
                (parseInt (Pregnancies formData))
                (parseFloat (Glucose formData))
                (parseFloat (BloodPressure formData))
                (parseFloat (BMI formData))
                (parseInt (Age formData)))).

End WithHost.

(** [handleSubmit] from the settling of the request on. *)
Definition handleSubmit_settled (r : Settled PredictionResult) : M State unit :=
  match attempt "Failed to get prediction" r with
  | inr data =>
      setResult (Some data) ;;
      toast {| title := "Prediction Complete";
               description :=
                 if diabetic data
                 then "Risk detected. Please consult a healthcare professional."
                 else "Low risk detected. Continue healthy habits!";
               variant := None |}
  | inl err =>
      let errorMessage :=
        message_or err
          "Failed to connect to API. Make sure the backend is running at http://127.0.0.1:8000" in
      setError errorMessage ;;
      toast {| title := "Error"; description := errorMessage;
               variant := Some "destructive" |}
  end ;;
  setLoading false.

End LegacyIndex.

(** ** The page and its form wired together *)

Module Page.

Record State := {
  index : Index.State;
  form : PredictionForm.State;
}.

Definition initial : State :=
  {| index := Index.initial; form := PredictionForm.initial |}.

(** The page passes [handlePredictionComplete] as the form's
    [onPredictionComplete] prop: every logged call runs it. *)
Fixpoint callbacks (es : list Effect) : M Index.State unit :=
  match es with
  | [] => ret tt
  | OnPredictionComplete d :: es => Index.handlePredictionComplete d ;; callbacks es
  | _ :: es => callbacks es
  end.

Definition in_form (h : M PredictionForm.State unit) : M State unit :=
  fun p =>
    let '(_, f, es) := h (form p) in
    let '(_, i, es') := callbacks es (index p) in
    (tt, {| index := i; form := f |}, es ++ es').

(** A click on the submit button; the request, when one is sent, settles
    with [r]. *)
Definition submit (r : Settled PredictionForm.PredictionResult) : M State unit :=
  fun p =>
    let formData := PredictionForm.formData (form p) in
    let '(_, p1, es1) := in_form PredictionForm.handleSubmit p in
    match requests es1 with
    | [] => (tt, p1, es1)
    | _ :: _ =>
        let '(_, p2, es2) :=
          in_form (PredictionForm.handleSubmit_settled formData r) p1 in
        (tt, p2, es1 ++ es2)
    end.

End Page.

(** ** The detailed analysis view: [DetailedAnalysis] *)

Module DetailedAnalysis.

Record DetailedPrediction := {
  prediction : string;
  probability : JS.number;
  risk_score : JS.number;
  confidence_level : string;
  feature_contributions : list (string * JS.number);
  risk_factors : list string;
  recommendations : list string;
  timestamp : string;
}.

Record State := {
  loading : bool;
  data : option DetailedPrediction;
  error : string;
}.

Definition initial : State := {| loading := true; data := None; error := "" |}.

Definition setLoading (b : bool) : M State unit :=
  modify (fun s => {| loading := b; data := data s; error := error s |}).

Definition setData (d : option DetailedPrediction) : M State unit :=
  modify (fun s => {| loading := loading s; data := d; error := error s |}).

Definition setError (e : string) : M State unit :=
  modify (fun s => {| loading := loading s; data := data s; error := e |}).

(** The effect on [predictionData], up to [await fetch(...)]. *)
Definition fetchDetailedPrediction (predictionData : PredictionData) : M State unit :=
  setLoading true ;;
  setError "" ;;
  fetch (post "/predict/detailed" predictionData).

(** The effect from the settling of its request on. *)
Definition fetchDetailedPrediction_settled (r : Settled DetailedPrediction)
  : M State unit :=
  match attempt "Failed to fetch detailed analysis" r with
  | inr result => setData (Some result)
  | inl err => setError (message_or err "Failed to load analysis")
  end ;;
  setLoading false.

(** What the component returns. *)
Inductive View :=
  | Spinner
  | ErrorAlert (message : string)
  | Report (data : DetailedPrediction).

Definition render (s : State) : View :=
  if loading s then Spinner
  else match data s with
       | Some data =>
           if negb (JS.not_str (error s))
           then ErrorAlert (JS.or_str (error s) "No data available")
           else Report data
       | None => ErrorAlert (JS.or_str (error s) "No data available")
       end.

(** The category and the text shown for one entry of [recommendations]:
    [const [category, ...rest] = rec.split("] ")], the rest joined again and
    the first bracket taken off the category. *)
Definition splitRecommendation (rec : string) : string * string :=
  match JS.split "] " rec with
  | category :: rest => (JS.replace "[" "" category, JS.join "] " rest)
  | [] => ("", "")
  end.

End DetailedAnalysis.

(** ** A session: the page state, the analysis view and its open requests *)

Module Session.

(** A request of the analysis view that has not settled yet.  The code
    keeps no such record; [issued_at] notes the [refreshTrigger] of the
    page when the request left, to speak about its age. *)
Record Pending := {
  issued_at : Z;
  issued_for : PredictionData;
}.

Record State := {
  index : Index.State;
  analysis : DetailedAnalysis.State;
  in_flight : list Pending;
}.

Definition initial : State :=
  {| index := Index.initial; analysis := DetailedAnalysis.initial; in_flight := [] |}.

(** A prediction completes with a new [formData] object: the page installs
    it and the view's effect runs on the changed [predictionData]. *)
Definition commit (d : PredictionData) (s : State) : State :=
  let i := state_of (Index.handlePredictionComplete d (index s)) in
  let a := state_of (DetailedAnalysis.fetchDetailedPrediction d (analysis s)) in
  {| index := i; analysis := a;
     in_flight := in_flight s ++
                  [{| issued_at := Index.refreshTrigger i; issued_for := d |}] |}.

(** The [n]-th open request settles with [r]. *)
Definition arrive (n : nat) (r : Settled DetailedAnalysis.DetailedPrediction)
    (s : State) : State :=
  match in_flight s !! n with
  | None => s
  | Some _ =>
      {| index := index s;
         analysis := state_of (DetailedAnalysis.fetchDetailedPrediction_settled r (analysis s));
         in_flight := delete n (in_flight s) |}
  end.

(** A request is stale when the page has moved on since it left. *)
Definition stale (p : Pending) (s : State) : Prop :=
  issued_at p ≠ Index.refreshTrigger (index s).

End Session.

(** ** The what-if view: [WhatIfAnalysis] *)

Module WhatIfAnalysis.

Record WhatIfResult := {
  original_prediction : string;
  original_probability : JS.number;
  modified_prediction : string;
  modified_probability : JS.number;
  probability_change : JS.number;
}.

Record State := {
  selectedFeature : string;
  newValue : string;
  loading : bool;
  result : option WhatIfResult;
}.

Definition initial : State :=
  {| selectedFeature := "Glucose"; newValue := ""; loading := false; result := None |}.

Definition setSelectedFeature (f : string) : M State unit :=
  modify (fun s => {| selectedFeature := f; newValue := newValue s;
                      loading := loading s; result := result s |}).

Definition setNewValue (v : string) : M State unit :=
  modify (fun s => {| selectedFeature := selectedFeature s; newValue := v;
                      loading := loading s; result := result s |}).

Definition setLoading (b : bool) : M State unit :=
  modify (fun s => {| selectedFeature := selectedFeature s; newValue := newValue s;
                      loading := b; result := result s |}).

Definition setResult (r : option WhatIfResult) : M State unit :=
  modify (fun s => {| selectedFeature := selectedFeature s; newValue := newValue s;
                      loading := loading s; result := r |}).

Record Feature := {
  name : string;
  min : JS.number;
  max : JS.number;
  step : JS.number;
}.

Definition features : list Feature :=
  [ {| name := "Pregnancies"; min := 0; max := 20; step := 1 |};
    {| name := "Glucose"; min := 0; max := 300; step := 1 |};
    {| name := "BloodPressure"; min := 0; max := 200; step := 1 |};
    {| name := "BMI"; min := 10; max := 70; step := 0.1 |};
    {| name := "Age"; min := 1; max := 120; step := 1 |} ].

Definition selectedFeatureInfo (s : State) : option Feature :=
  List.find (fun f => bool_decide (name f = selectedFeature s)) features.

(** [handleAnalyze] up to [await fetch(...)]; [initialData] is the prop. *)
Definition handleAnalyze (initialData : PredictionData) : M State unit :=
  s <- get ;;
  if JS.not_str (newValue s) then
    toast {| title := "Error"; description := "Please enter a value";
             variant := Some "destructive" |}
  else
    setLoading true ;;
    fetch {| url := API_BASE_URL +:+ "/what_if?modified_feature=" +:+ selectedFeature s
                    +:+ "&new_value=" +:+ newValue s;
             method := "POST";
             headers := [("Content-Type", "application/json")];
             body := Some initialData |}.

(** [handleAnalyze] from the settling of the request on; [selectedFeature]
    is the value the handler closed over. *)
Definition handleAnalyze_settled (selectedFeature : string) (r : Settled WhatIfResult)
  : M State unit :=
  match attempt "Failed to perform what-if analysis" r with
  | inr data =>
      setResult (Some data) ;;
      toast {| title := "Analysis Complete";
               description := "Impact calculated for " +:+ selectedFeature +:+ " change";
               variant := None |}
  | inl err =>
      toast {| title := "Error"; description := message_or err "Analysis failed";
               variant := Some "destructive" |}
  end ;;
  setLoading false.

Definition probabilityChangePercent (s : State) : JS.text :=
  match result s with
  | Some result => JS.toFixed (probability_change result * 100) 2
  | None => JS.Plain "0"
  end.

(** [result && result.probability_change < 0], as a condition. *)
Definition isImprovement (s : State) : bool :=
  match result s with
  | Some result => JS.lt (probability_change result) 0
  | None => false
  end.

(** The alert under the two predictions, rendered when there is a result:
    its classes, its icon, the sign and the percentage of the change (shown
    one after the other, before a percent sign) and the advice. *)
Record Alert := {
  alertClass : string;
  icon : string;
  iconClass : string;
  changeClass : string;
  changeSign : string;
  changePercent : JS.text;
  advice : string;
}.

Definition renderAlert (s : State) : option Alert :=
  match result s with
  | None => None
  | Some result =>
      Some {| alertClass := "mt-6 " +:+ (if isImprovement s then "border-success"
                                         else "border-destructive");
              icon := if isImprovement s then "TrendingDown" else "TrendingUp";
              iconClass := if isImprovement s then "w-4 h-4 text-success"
                           else "w-4 h-4 text-destructive";
              changeClass := if isImprovement s then "text-success" else "text-destructive";
              changeSign := if JS.gt (probability_change result) 0 then "+" else "";
              changePercent := probabilityChangePercent s;
              advice := if isImprovement s
                        then "Lowering this metric improves your risk profile"
                        else "This change increases diabetes risk" |}
  end.

(** Modelled from the spec: the scoring service's what-if operation, whose
    code is not among the sources.  Of its response the spec fixes
    [probabilityDelta = modifiedResult.probability - baselineResult.probability];
    the two predictions and probabilities are the service's own. *)
Definition what_if_response (original_prediction : string)
    (original_probability : JS.number) (modified_prediction : string)
    (modified_probability : JS.number) : WhatIfResult :=
  {| original_prediction := original_prediction;
     original_probability := original_probability;
     modified_prediction := modified_prediction;
     modified_probability := modified_probability;
     probability_change := modified_probability - original_probability |}.

End WhatIfAnalysis.

(** ** The history view: [PredictionHistory] *)

Module PredictionHistory.

Record PredictionLog := {
  timestamp : string;
  input : PredictionData;
  prediction : string;
  probability : JS.number;
}.

(** The [timestamp] of [HistoryData] is [fetched_at] here: one module
    cannot hold two fields of one name. *)
Record HistoryData := {
  total_predictions : JS.number;
  recent_predictions : list PredictionLog;
  fetched_at : string;
}.

Record State := {
  loading : bool;
  data : option HistoryData;
  error : string;
}.

Definition initial : State := {| loading := true; data := None; error := "" |}.

Definition setLoading (b : bool) : M State unit :=
  modify (fun s => {| loading := b; data := data s; error := error s |}).

Definition setData (d : option HistoryData) : M State unit :=
  modify (fun s => {| loading := loading s; data := d; error := error s |}).

Definition setError (e : string) : M State unit :=
  modify (fun s => {| loading := loading s; data := data s; error := e |}).

(** [fetchHistory] up to [await fetch(...)]. *)
Definition fetchHistory : M State unit :=
  setLoading true ;;
  setError "" ;;
  fetch {| url := API_BASE_URL +:+ "/history?limit=50"; method := "GET";
           headers := []; body := None |}.

Definition fetchHistory_settled (r : Settled HistoryData) : M State unit :=
  match attempt "Failed to fetch history" r with
  | inr result => setData (Some result)
  | inl err => setError (message_or err "Failed to load history")
  end ;;
  setLoading false.

Record ChartPoint := {
  name : string;
  chart_probability : JS.text;
  chart_timestamp : string;
}.

Section WithHost.
Context `{Host}.

Definition chartPoint (index : nat) (log : PredictionLog) : ChartPoint :=
  {| name := "#" +:+ pretty (index + 1)%nat;
     chart_probability := JS.toFixed (probability log * 100) 2;
     chart_timestamp := toLocaleTimeString (timestamp log) |}.

Definition chartData (data : HistoryData) : list ChartPoint :=
  reverse (imap chartPoint (recent_predictions data)).

End WithHost.

(** The text of the "Avg Risk Score" tile, without its percent sign. *)
Definition avgRiskScore (data : HistoryData) : JS.text :=
  JS.toFixed
    (fold_left (fun acc log => acc + probability log)%float (recent_predictions data) 0%float
     / JS.of_nat (length (recent_predictions data)) * 100)
    1.

Definition latestPrediction (data : HistoryData) : option string :=
  prediction <$> last (recent_predictions data).

(** What the component returns, after its hooks and handlers. *)
Inductive View :=
  | Spinner
  | ErrorAlert (message : string)
  | NoHistoryYet
  | Dashboard (total : JS.number) (latest : option string) (average : JS.text)
              (chart : list ChartPoint).

Definition render `{Host} (s : State) : View :=
  if loading s then Spinner
  else if negb (JS.not_str (error s)) then ErrorAlert (error s)
  else match data s with
       | None => NoHistoryYet
       | Some data =>
           if (total_predictions data =? 0)%float then NoHistoryYet
           else Dashboard (total_predictions data) (latestPrediction data)
                          (avgRiskScore data) (chartData data)
       end.

(** [handleClearHistory] up to [await fetch(...)]. *)
Definition handleClearHistory : M State unit :=
  fetch {| url := API_BASE_URL +:+ "/history"; method := "DELETE";
           headers := []; body := None |}.

(** [handleClearHistory] from the settling of its request on.  The body of
    the response is not read, and the [catch] clause does not look at what was
    thrown; [fetchHistory] is called without waiting for it. *)
Definition handleClearHistory_settled {A} (r : Settled A) : M State unit :=
  match r with
  | inr response =>
      if negb (ok response) then
        toast {| title := "Error"; description := "Failed to clear history";
                 variant := Some "destructive" |}
      else
        toast {| title := "History Cleared";
                 description := "All prediction logs have been removed";
                 variant := None |} ;;
        fetchHistory
  | inl _ =>
      toast {| title := "Error"; description := "Failed to clear history";
               variant := Some "destructive" |}
  end.

(** The rows under "Recent Predictions":
    [recent_predictions.slice().reverse().slice(0, 10)]. *)
Definition recentRows (data : HistoryData) : list PredictionLog :=
  take 10 (reverse (recent_predictions data)).

(** The percentage at the right of a row. *)
Definition rowPercent (log : PredictionLog) : JS.text :=
  JS.toFixed (probability log * 100) 1.

End PredictionHistory.

(** ** The risk map: [RiskAssessment] *)

Module RiskAssessment.

Record RiskAssessmentData := {
  feature : string;
  value : JS.number;
  status : string;
  risk_level : string;
  normal_range : string;
}.

Definition getRiskColor (riskLevel : string) : string :=
  if decide (riskLevel = "High") then "destructive"
  else if decide (riskLevel = "Medium") then "default"
  else if decide (riskLevel = "Low") then "secondary"
  else "outline".

Definition highRiskCount (data : list RiskAssessmentData) : Z :=
  Z.of_nat (length (filter (fun d => risk_level d = "High") data)).

Definition mediumRiskCount (data : list RiskAssessmentData) : Z :=
  Z.of_nat (length (filter (fun d => risk_level d = "Medium") data)).

(** The count shown after "Low Risk". *)
Definition lowRiskShown (data : list RiskAssessmentData) : Z :=
  Z.of_nat (length data) - highRiskCount data - mediumRiskCount data.

End RiskAssessment.

(** ** Reachable states of the tabbed form *)

Module FormTrace.
Import PredictionForm.

(** The states the form goes through, from its initial state, by its
    handlers.  [accepts] says what text the inputs hand over. *)
Inductive reachable `{Host} (accepts : string -> Prop) : State -> Prop :=
  | reach_initial : reachable accepts initial
  | reach_change s name value :
      reachable accepts s -> accepts value ->
      reachable accepts (state_of (handleInputChange name value s))
  | reach_reset s :
      reachable accepts s -> reachable accepts (state_of (resetForm s))
  | reach_submit s :
      reachable accepts s -> reachable accepts (state_of (handleSubmit s))
  | reach_settled s formData r :
      reachable accepts s ->
      reachable accepts (state_of (handleSubmit_settled formData r s)).

(** The five inputs of the form are rendered with [type="number"]: the value
    such an input hands over is the empty string or the text of a finite
    number, never text that [parseFloat] reads as an infinity. *)
Definition number_input `{Host} (value : string) : Prop :=
  is_infinity (parseFloat value) = false.

Definition any_text (value : string) : Prop := True.

Definition all_fields (P : JS.number -> Prop) (d : PredictionData) : Prop :=
  P (Pregnancies d) /\ P (Glucose d) /\ P (BloodPressure d) /\ P (BMI d) /\ P (Age d).

End FormTrace.

(** ** Examples *)

Module Examples.

(** A host for the examples: both parsers read a string of decimal digits
    and give [NaN] for anything else; times are shown as stored. *)
Definition digit (c : Ascii.ascii) : option Z :=
  let n := Z.of_nat (Ascii.nat_of_ascii c) in
  if (48 <=? n) && (n <=? 57) then Some (n - 48) else None.

Fixpoint digits (s : string) (acc : Z) : option Z :=
  match s with
  | EmptyString => Some acc
  | String c s => d ← digit c; digits s (10 * acc + d)
  end.

Definition parse_digits (s : string) : JS.number :=
  match s with
  | EmptyString => nan
  | _ => from_option (fun z => of_uint63 (Uint63.of_Z z)) nan (digits s 0)
  end.

Definition host : Host :=
  {| parseFloat := parse_digits; parseInt := parse_digits; toLocaleTimeString := id |}.

(** A host like [host] whose [parseFloat] also reads, as the built-in does,
    the text [Infinity] and a decimal beyond the doubles as an infinity. *)
Definition parse_large (s : string) : JS.number :=
  if decide (s = "Infinity") then infinity
  else if decide (s = "1e400") then infinity
  else parse_digits s.

Definition large_host : Host :=
  {| parseFloat := parse_large; parseInt := parse_digits; toLocaleTimeString := id |}.

Definition inputA : PredictionData :=
  {| Pregnancies := 2; Glucose := 130; BloodPressure := 70; BMI := 28.5; Age := 45 |}.

Definition inputB : PredictionData :=
  {| Pregnancies := 1; Glucose := 95; BloodPressure := 64; BMI := 22; Age := 31 |}.

Definition resultA : PredictionForm.PredictionResult :=
  {| PredictionForm.prediction := "Diabetic"; PredictionForm.probability := 0.67;
     PredictionForm.risk_score := 67; PredictionForm.confidence_level := "High" |}.

Definition detailed (prediction : string) (probability : JS.number)
  : DetailedAnalysis.DetailedPrediction :=
  {| DetailedAnalysis.prediction := prediction;
     DetailedAnalysis.probability := probability;
     DetailedAnalysis.risk_score := probability * 100;
     DetailedAnalysis.confidence_level := "High";
     DetailedAnalysis.feature_contributions := [];
     DetailedAnalysis.risk_factors := [];
     DetailedAnalysis.recommendations := [];
     DetailedAnalysis.timestamp := "2025-01-01T10:00:00" |}.

Definition detailedA := detailed "Diabetic" 0.67.
Definition detailedB := detailed "Non-Diabetic" 0.12.

(** The tabbed form holding [d]. *)
Definition form_with (d : PredictionData) : PredictionForm.State :=
  {| PredictionForm.formData := d; PredictionForm.loading := false;
     PredictionForm.result := None; PredictionForm.error := "" |}.

(** The single-page form holding the five texts. *)
Definition legacy_with (p g b m a : string) : LegacyIndex.State :=
  {| LegacyIndex.formData :=
       {| LegacyIndex.Pregnancies := p; LegacyIndex.Glucose := g;
          LegacyIndex.BloodPressure := b; LegacyIndex.BMI := m; LegacyIndex.Age := a |};
     LegacyIndex.loading := false; LegacyIndex.result := None;
     LegacyIndex.error := "" |}.

Definition log (probability : JS.number) : PredictionHistory.PredictionLog :=
  {| PredictionHistory.timestamp := "2025-01-01T10:00:00";
     PredictionHistory.input := inputA;
     PredictionHistory.prediction := "Diabetic";
     PredictionHistory.probability := probability |}.

Definition history (total : JS.number) (logs : list PredictionHistory.PredictionLog)
  : PredictionHistory.HistoryData :=
  {| PredictionHistory.total_predictions := total;
     PredictionHistory.recent_predictions := logs;
     PredictionHistory.fetched_at := "2025-01-01T10:05:00" |}.

Definition loaded (d : PredictionHistory.HistoryData) : PredictionHistory.State :=
  {| PredictionHistory.loading := false; PredictionHistory.data := Some d;
     PredictionHistory.error := "" |}.

Definition whatif_with (feature value : string) (r : option WhatIfAnalysis.WhatIfResult)
  : WhatIfAnalysis.State :=
  {| WhatIfAnalysis.selectedFeature := feature; WhatIfAnalysis.newValue := value;
     WhatIfAnalysis.loading := false; WhatIfAnalysis.result := r |}.

Definition risk (feature level : string) : RiskAssessment.RiskAssessmentData :=
  {| RiskAssessment.feature := feature; RiskAssessment.value := 1;
     RiskAssessment.status := "-"; RiskAssessment.risk_level := level;
     RiskAssessment.normal_range := "-" |}.

(** The page once [inputA] has been committed with [resultA]. *)
Definition committedA : Page.State :=
  state_of (Page.submit (succeeded resultA)
              {| Page.index := Index.initial; Page.form := form_with inputA |}).

(** A session in which [inputA] and then [inputB] were committed and the
    answer for [inputB] has arrived; the request for [inputA] is still
    open. *)
Definition answeredB : Session.State :=
  Session.arrive 1 (succeeded detailedB)
    (Session.commit inputB (Session.commit inputA Session.initial)).

End Examples.


(** ** The claims of the specification, as it words them *)

Module Stated.

(** [message] names [field]. *)
Definition names (field message : string) : Prop :=
  String.index 0 field message <> None.

(** Some field of the single-page form is absent. *)
Definition some_absent (d : LegacyIndex.PredictionData) : Prop :=
  LegacyIndex.Pregnancies d = "" \/ LegacyIndex.Glucose d = ""
  \/ LegacyIndex.BloodPressure d = "" \/ LegacyIndex.BMI d = ""
  \/ LegacyIndex.Age d = "".

(** Validation of the form with all five fields absent fails with an error
    that names Pregnancies, the first field. *)
Definition missing_field_named : Prop :=
  forall H : Host,
    value_of (LegacyIndex.validateForm LegacyIndex.initial) = false
    /\ names "Pregnancies"
         (LegacyIndex.error (state_of (LegacyIndex.validateForm LegacyIndex.initial))).

(** In every state the tabbed form reaches, whatever is typed, each of the
    five fields holds a finite number. *)
Definition fields_always_finite : Prop :=
  forall (H : Host) (s : PredictionForm.State),
    FormTrace.reachable FormTrace.any_text s ->
    FormTrace.all_fields (fun x => is_finite x = true) (PredictionForm.formData s).

(** How a request fails: it is rejected, the response is not [ok], or its
    body does not decode. *)
Definition failed {A} (r : Settled A) : Prop :=
  match r with
  | inl _ => True
  | inr response => ok response = false \/ exists err, json response = inl err
  end.

(** The pair a commit installs: the input the page holds and the result
    the form shows for it. *)
Definition canonical_pair (p : Page.State)
  : option PredictionData * option PredictionForm.PredictionResult :=
  (Index.currentPrediction (Page.index p), PredictionForm.result (Page.form p)).

(** A commit whose request fails leaves the committed pair and the
    revision as they were. *)
Definition failed_commit_keeps_pair : Prop :=
  forall (p : Page.State) (r : Settled PredictionForm.PredictionResult),
    failed r ->
    canonical_pair (state_of (Page.submit r p)) = canonical_pair p
    /\ Index.refreshTrigger (Page.index (state_of (Page.submit r p)))
       = Index.refreshTrigger (Page.index p).

(** A response that arrives after a newer revision was committed changes
    nothing in the dependent view. *)
Definition stale_response_discarded : Prop :=
  forall (s : Session.State) (n : nat) (p : Session.Pending)
         (r : Settled DetailedAnalysis.DetailedPrediction),
    Session.in_flight s !! n = Some p ->
    Session.stale p s ->
    Session.analysis (Session.arrive n r s) = Session.analysis s.

(** The new value lies outside the range the view declares for the
    selected feature. *)
Definition override_out_of_range `{Host} (s : WhatIfAnalysis.State) : Prop :=
  exists f,
    WhatIfAnalysis.selectedFeatureInfo s = Some f
    /\ (JS.lt (parseFloat (WhatIfAnalysis.newValue s)) (WhatIfAnalysis.min f) = true
        \/ JS.gt (parseFloat (WhatIfAnalysis.newValue s)) (WhatIfAnalysis.max f) = true).

(** An override outside its range is refused before any request is sent. *)
Definition override_validated : Prop :=
  forall (H : Host) (initialData : PredictionData) (s : WhatIfAnalysis.State),
    override_out_of_range s ->
    requests (effects_of (WhatIfAnalysis.handleAnalyze initialData s)) = [].


(** The [i]-th point of the trend is made from the [i]-th entry. *)
Definition trend_keeps_order : Prop :=
  forall (H : Host) (d : PredictionHistory.HistoryData) (i : nat),
    PredictionHistory.chartData d !! i
    = PredictionHistory.chartPoint i <$> PredictionHistory.recent_predictions d !! i.

(** The tiers of the specification's [RiskTier], the tier a [risk_level]
    text stands for, and the number of entries of a tier. *)
Inductive RiskTier := Low | Medium | High.

Definition tier_of (risk_level : string) : option RiskTier :=
  if decide (risk_level = "Low") then Some Low
  else if decide (risk_level = "Medium") then Some Medium
  else if decide (risk_level = "High") then Some High
  else None.

Definition is_tier (t u : RiskTier) : bool :=
  match t, u with
  | Low, Low | Medium, Medium | High, High => true
  | _, _ => false
  end.

Fixpoint count (t : RiskTier) (tiers : list RiskTier) : Z :=
  match tiers with
  | [] => 0
  | u :: tiers => (if is_tier t u then 1 else 0) + count t tiers
  end.

End Stated.

(** ** The model page: [ModelInfo] *)

Module ModelInfo.

Record Metrics := {
  accuracy : JS.number;
  f1_score : JS.number;
  precision : JS.number;
  recall : JS.number;
}.

Record ModelMetadata := {
  version : string;
  algorithm : string;
  training_date : string;
  metrics : Metrics;
  required_features : list string;
}.

Record APIStats := {
  total_api_calls : JS.number;
  endpoint_usage : list (string * JS.number);
  total_predictions : JS.number;
  timestamp : string;
}.

Record State := {
  loading : bool;
  modelData : option ModelMetadata;
  statsData : option APIStats;
  error : string;
}.

Definition initial : State :=
  {| loading := true; modelData := None; statsData := None; error := "" |}.

Definition setLoading (b : bool) : M State unit :=
  modify (fun s => {| loading := b; modelData := modelData s;
                      statsData := statsData s; error := error s |}).

Definition setModelData (d : option ModelMetadata) : M State unit :=
  modify (fun s => {| loading := loading s; modelData := d;
                      statsData := statsData s; error := error s |}).

Definition setStatsData (d : option APIStats) : M State unit :=
  modify (fun s => {| loading := loading s; modelData := modelData s;
                      statsData := d; error := error s |}).

Definition setError (e : string) : M State unit :=
  modify (fun s => {| loading := loading s; modelData := modelData s;
                      statsData := statsData s; error := e |}).

Definition get_ (path : string) : Request :=
  {| url := API_BASE_URL +:+ path; method := "GET"; headers := []; body := None |}.

(** [fetchData] up to [await Promise.all(...)]: both requests leave. *)
Definition fetchData : M State unit :=
  setLoading true ;;
  setError "" ;;
  fetch (get_ "/model_info") ;;
  fetch (get_ "/stats").

(** [Promise.all] of the two requests: both responses, or the reason of the
    rejection that came first; [stats_first] says which of two did. *)
Definition all {A B} (stats_first : bool) (m : Settled A) (s : Settled B)
  : Thrown + Response A * Response B :=
  match m, s with
  | inr rm, inr rs => inr (rm, rs)
  | inl e, inr _ => inl e
  | inr _, inl e => inl e
  | inl em, inl es => inl (if stats_first then es else em)
  end.

(** The [try] block from [Promise.all] to the two decoded bodies. *)
Definition attempt_both (stats_first : bool) (m : Settled ModelMetadata)
    (s : Settled APIStats) : Thrown + ModelMetadata * APIStats :=
  match all stats_first m s with
  | inl err => inl err
  | inr (modelResponse, statsResponse) =>
      if negb (ok modelResponse) || negb (ok statsResponse)
      then inl (ErrorObj "Failed to fetch model information")
      else match json modelResponse with
           | inl err => inl err
           | inr model =>
               match json statsResponse with
               | inl err => inl err
               | inr stats => inr (model, stats)
               end
           end
  end.

(** [fetchData] from the settling of [Promise.all] on. *)
Definition fetchData_settled (stats_first : bool) (m : Settled ModelMetadata)
    (s : Settled APIStats) : M State unit :=
  match attempt_both stats_first m s with
  | inr (model, stats) =>
      setModelData (Some model) ;;
      setStatsData (Some stats)
  | inl err => setError (message_or err "Failed to load data")
  end ;;
  setLoading false.

Inductive View :=
  | Spinner
  | ErrorAlert (message : string)
  | Info (model : ModelMetadata) (stats : APIStats).

Definition render (s : State) : View :=
  if loading s then Spinner
  else match modelData s, statsData s with
       | Some model, Some stats =>
           if negb (JS.not_str (error s))
           then ErrorAlert (JS.or_str (error s) "No data available")
           else Info model stats
       | _, _ => ErrorAlert (JS.or_str (error s) "No data available")
       end.

End ModelInfo.

(** ** The advisor: [AIAdvisor] *)

Module AIAdvisor.

Record Message := {
  role : string;
  content : string;
}.

(** [timers] holds the replies [setTimeout] has still to deliver, oldest
    first, each with the [currentPrediction] its callback closed over.  The
    component keeps no such list; it is the host's timer queue. *)
Record State := {
  prompt : string;
  messages : list Message;
  timers : list (option PredictionData);
}.

Definition initial : State := {| prompt := ""; messages := []; timers := [] |}.

Definition quickPrompts : list string :=
  [ "What dietary changes should I make to reduce diabetes risk?";
    "Can you create a 7-day meal plan for diabetes prevention?";
    "What exercises are best for managing blood sugar?";
    "Explain the relationship between BMI and diabetes";
    "What are the early warning signs of diabetes?" ].

Definition setPrompt (text : string) (s : State) : State :=
  {| prompt := text; messages := messages s; timers := timers s |}.

Definition handleQuickPrompt (quickPrompt : string) (s : State) : State :=
  setPrompt quickPrompt s.

Section WithNumberText.
(** How a template literal writes a number. *)
Variable numberToString : JS.number -> string.

Definition response (currentPrediction : option PredictionData) : string :=
  "I'm an AI health advisor. "
  +:+ match currentPrediction with
      | Some p =>
          "Based on your recent prediction with glucose level of "
          +:+ numberToString (Glucose p) +:+ " and BMI of "
          +:+ numberToString (BMI p) +:+ ", "
      | None => ""
      end
  +:+ "I recommend consulting with healthcare professionals for personalized advice. "
  +:+ "Would you like specific guidance on diet, exercise, or monitoring?".

Definition handleSendMessage (currentPrediction : option PredictionData) (s : State)
  : State :=
  if JS.blank (prompt s) then s
  else {| prompt := "";
          messages := messages s ++ [{| role := "user"; content := prompt s |}];
          timers := timers s ++ [currentPrediction] |}.

(** The oldest timer fires. *)
Definition timeout (s : State) : State :=
  match timers s with
  | [] => s
  | currentPrediction :: rest =>
      {| prompt := prompt s;
         messages := messages s ++ [{| role := "assistant";
                                       content := response currentPrediction |}];
         timers := rest |}
  end.

(** What can happen to the component, and a run of such events. *)
Inductive Event :=
  | Typed (text : string)
  | QuickPrompt (quickPrompt : string)
  | Send (currentPrediction : option PredictionData)
  | Timeout.

Definition step (s : State) (e : Event) : State :=
  match e with
  | Typed text => setPrompt text s
  | QuickPrompt quickPrompt => handleQuickPrompt quickPrompt s
  | Send currentPrediction => handleSendMessage currentPrediction s
  | Timeout => timeout s
  end.

Definition run (events : list Event) (s : State) : State := fold_left step events s.

End WithNumberText.

Definition said_by (who : string) (ms : list Message) : nat :=
  length (filter (fun m => role m = who) ms).

End AIAdvisor.

(** ** Ranges of the five fields *)

Module Ranges.

(** A number within the closed range, or [NaN]. *)
Definition within_or_nan (lo hi x : JS.number) : bool :=
  is_nan x || JS.within lo hi x.

(** Every field within its closed range. *)
Definition in_ranges (d : PredictionData) : bool :=
  JS.within 0 20 (Pregnancies d) && JS.within 0 300 (Glucose d)
  && JS.within 0 200 (BloodPressure d) && JS.within 10 70 (BMI d)
  && JS.within 1 120 (Age d).

(** Pregnancies within its range, every other field within its own or [NaN]. *)
Definition passes (d : PredictionData) : bool :=
  JS.within 0 20 (Pregnancies d) && within_or_nan 0 300 (Glucose d)
  && within_or_nan 0 200 (BloodPressure d) && within_or_nan 10 70 (BMI d)
  && within_or_nan 1 120 (Age d).

(** What the single-page form sends for its five texts. *)
Definition parsed `{Host} (d : LegacyIndex.PredictionData) : PredictionData :=
  mkPredictionData
    (parseInt (LegacyIndex.Pregnancies d)) (parseFloat (LegacyIndex.Glucose d))
    (parseFloat (LegacyIndex.BloodPressure d)) (parseFloat (LegacyIndex.BMI d))
    (parseInt (LegacyIndex.Age d)).

(** No text empty, and every parsed field within its range or [NaN]. *)
Definition legacy_passes `{Host} (d : LegacyIndex.PredictionData) : bool :=
  negb (JS.not_str (LegacyIndex.Pregnancies d) || JS.not_str (LegacyIndex.Glucose d)
        || JS.not_str (LegacyIndex.BloodPressure d) || JS.not_str (LegacyIndex.BMI d)
        || JS.not_str (LegacyIndex.Age d))
  && within_or_nan 0 20 (Pregnancies (parsed d))
  && within_or_nan 0 300 (Glucose (parsed d))
  && within_or_nan 0 200 (BloodPressure (parsed d))
  && within_or_nan 10 70 (BMI (parsed d))
  && within_or_nan 1 120 (Age (parsed d)).

End Ranges.

(** ** Text without a given code unit *)

Module Text.

(** The closing bracket, code unit 93. *)
Definition closing_bracket : Ascii.ascii := Eval compute in Ascii.ascii_of_nat 93.

Fixpoint lacks (c : Ascii.ascii) (s : string) : bool :=
  match s with
  | EmptyString => true
  | String c' s => negb (Ascii.eqb c c') && lacks c s
  end.

End Text.

(** ** Reachable states of the tabbed page *)

Module PageTrace.

(** The states the page and its form go through: text is typed into a field,
    the form is reset, or the form is submitted and its request, if one
    leaves, settles. *)
Inductive reachable `{Host} : Page.State -> Prop :=
  | reach_initial : reachable Page.initial
  | reach_change p name value :
      reachable p ->
      reachable (state_of (Page.in_form (PredictionForm.handleInputChange name value) p))
  | reach_reset p :
      reachable p -> reachable (state_of (Page.in_form PredictionForm.resetForm p))
  | reach_submit p r :
      reachable p -> reachable (state_of (Page.submit r p)).

End PageTrace.

(** * Proofs *)

(** Unfolds the monad and the setters of the two forms. *)
Ltac handler :=
  cbv [bind ret get modify emit toast fetch state_of value_of effects_of
       PredictionForm.setError PredictionForm.setLoading PredictionForm.setResult
       PredictionForm.setFormData
       LegacyIndex.setError LegacyIndex.setLoading LegacyIndex.setResult
       LegacyIndex.setFormData].

Ltac split_ifs :=
  repeat match goal with
         | |- context [if ?c then _ else _] => destruct c eqn:?
         end.

(** *** Numbers *)

Lemma is_nan_Prim2SF (x : float) : is_nan x = true -> Prim2SF x = S754_nan.
Proof.
  unfold is_nan. rewrite eqb_spec. unfold SFeqb, SFcompare.
  destruct (Prim2SF x) as [[]|[]| |[] m e]; try discriminate; try reflexivity;
    rewrite Z.compare_refl, ?Pos.compare_cont_refl; discriminate.
Qed.

Lemma nan_eqb (x y : float) : is_nan x = true -> (x =? y)%float = false.
Proof. intros Hx. rewrite eqb_spec, (is_nan_Prim2SF x Hx). reflexivity. Qed.

Lemma or_zero_not_nan (x : float) : is_nan (JS.or x 0) = false.
Proof.
  unfold JS.or, JS.truthy. destruct (is_nan x) eqn:Hx; [reflexivity|].
  destruct (is_zero x); simpl; [reflexivity | exact Hx].
Qed.

Lemma or_zero_finite (x : float) :
  is_infinity x = false -> is_finite (JS.or x 0) = true.
Proof.
  intros Hi. unfold JS.or, JS.truthy.
  destruct (is_nan x) eqn:Hx; [reflexivity|].
  destruct (is_zero x); simpl; [reflexivity|].
  unfold is_finite. now rewrite Hx, Hi.
Qed.

(** The first test of [validateForm] in [PredictionForm] holds of [NaN] only. *)
Lemma missing_test (x : float) :
  JS.not x && JS.strict_ne x 0 = is_nan x.
Proof.
  unfold JS.not, JS.truthy, JS.strict_ne. rewrite negb_involutive.
  destruct (is_nan x) eqn:Hx; simpl.
  - now rewrite (nan_eqb x 0 Hx).
  - unfold is_zero, zero. now destruct (x =? 0)%float.
Qed.

(** *** Validation *)

Lemma validateForm_shape (s : PredictionForm.State) :
  PredictionForm.validateForm s = (true, s, [])
  \/ exists e, PredictionForm.validateForm s = (false, PredictionForm.with_error e s, []).
Proof.
  unfold PredictionForm.validateForm. handler.
  split_ifs; eauto.
Qed.

Lemma legacy_validateForm_shape `{Host} (s : LegacyIndex.State) :
  LegacyIndex.validateForm s = (true, s, [])
  \/ exists e, LegacyIndex.validateForm s = (false, LegacyIndex.with_error e s, []).
Proof.
  unfold LegacyIndex.validateForm. handler.
  split_ifs; eauto.
Qed.

Lemma handleSubmit_invalid (s : PredictionForm.State) :
  value_of (PredictionForm.validateForm s) = false ->
  exists e, PredictionForm.handleSubmit s = (tt, PredictionForm.with_error e s, []).
Proof.
  intros Hv. unfold PredictionForm.handleSubmit.
  destruct (validateForm_shape s) as [E | (e & E)].
  - rewrite E in Hv. discriminate.
  - exists e. unfold bind at 1. rewrite E. reflexivity.
Qed.

Lemma handleSubmit_valid (s : PredictionForm.State) :
  value_of (PredictionForm.validateForm s) = true ->
  PredictionForm.handleSubmit s =
    (tt,
     {| PredictionForm.formData := PredictionForm.formData s;
        PredictionForm.loading := true;
        PredictionForm.result := None;
        PredictionForm.error := "" |},
     [Fetch (post "/predict" (PredictionForm.formData s))]).
Proof.
  intros Hv. unfold PredictionForm.handleSubmit.
  destruct (validateForm_shape s) as [E | (e & E)].
  - unfold bind at 1. rewrite E. reflexivity.
  - rewrite E in Hv. discriminate.
Qed.

Lemma legacy_handleSubmit_invalid `{Host} (s : LegacyIndex.State) :
  value_of (LegacyIndex.validateForm s) = false ->
  exists e, LegacyIndex.handleSubmit s = (tt, LegacyIndex.with_error e s, []).
Proof.
  intros Hv. unfold LegacyIndex.handleSubmit.
  destruct (legacy_validateForm_shape s) as [E | (e & E)].
  - rewrite E in Hv. discriminate.
  - exists e. unfold bind at 1. rewrite E. reflexivity.
Qed.

Lemma legacy_handleSubmit_valid `{Host} (s : LegacyIndex.State) :
  value_of (LegacyIndex.validateForm s) = true ->
  exists r, LegacyIndex.handleSubmit s =
    (tt,
     {| LegacyIndex.formData := LegacyIndex.formData s;
        LegacyIndex.loading := true;
        LegacyIndex.result := None;
        LegacyIndex.error := "" |},
     [Fetch r]).
Proof.
  intros Hv. unfold LegacyIndex.handleSubmit.
  destruct (legacy_validateForm_shape s) as [E | (e & E)].
  - eexists. unfold bind at 1. rewrite E. reflexivity.
  - rewrite E in Hv. discriminate.
Qed.

Lemma page_submit_invalid (r : Settled PredictionForm.PredictionResult) (p : Page.State) :
  value_of (PredictionForm.validateForm (Page.form p)) = false ->
  exists e, Page.submit r p =
    (tt, {| Page.index := Page.index p;
            Page.form := PredictionForm.with_error e (Page.form p) |}, []).
Proof.
  intros Hv. destruct (handleSubmit_invalid _ Hv) as (e & E).
  exists e. unfold Page.submit, Page.in_form. rewrite E. reflexivity.
Qed.

(** C3: an input that fails validation is never sent to the scoring service.
    In both forms a submission whose [validateForm] returns [false] asks
    nothing of its environment (no request, no toast, no callback) and only
    sets the error text; on the tabbed page the page state stays as it was,
    however a request would have settled.  Conversely, a form that sends a
    request has passed validation. *)
Theorem invalid_input_sends_no_request `{Host} :
  (forall s : PredictionForm.State,
     value_of (PredictionForm.validateForm s) = false ->
     requests (effects_of (PredictionForm.handleSubmit s)) = []
     /\ effects_of (PredictionForm.handleSubmit s) = [])
  /\ (forall s : LegacyIndex.State,
     value_of (LegacyIndex.validateForm s) = false ->
     requests (effects_of (LegacyIndex.handleSubmit s)) = []
     /\ effects_of (LegacyIndex.handleSubmit s) = [])
  /\ (forall (p : Page.State) (r : Settled PredictionForm.PredictionResult),
     value_of (PredictionForm.validateForm (Page.form p)) = false ->
     effects_of (Page.submit r p) = []
     /\ Page.index (state_of (Page.submit r p)) = Page.index p)
  /\ (forall (s : PredictionForm.State) (q : Request),
     q ∈ requests (effects_of (PredictionForm.handleSubmit s)) ->
     value_of (PredictionForm.validateForm s) = true)
  /\ (forall (s : LegacyIndex.State) (q : Request),
     q ∈ requests (effects_of (LegacyIndex.handleSubmit s)) ->
     value_of (LegacyIndex.validateForm s) = true).
Proof.
  repeat split.
  - destruct (handleSubmit_invalid s) as (e & ->); done.
  - destruct (handleSubmit_invalid s) as (e & ->); done.
  - destruct (legacy_handleSubmit_invalid s) as (e & ->); done.
  - destruct (legacy_handleSubmit_invalid s) as (e & ->); done.
  - destruct (page_submit_invalid r p) as (e & ->); done.
  - destruct (page_submit_invalid r p) as (e & ->); done.
  - intros s q Hq.
    destruct (value_of (PredictionForm.validateForm s)) eqn:Hv; [done|].
    destruct (handleSubmit_invalid s Hv) as (e & E). rewrite E in Hq.
    by apply elem_of_nil in Hq.
  - intros s q Hq.
    destruct (value_of (LegacyIndex.validateForm s)) eqn:Hv; [done|].
    destruct (legacy_handleSubmit_invalid s Hv) as (e & E). rewrite E in Hq.
    by apply elem_of_nil in Hq.
Qed.

Lemma invalid_input_sends_no_request_witness :
  requests (effects_of (PredictionForm.handleSubmit PredictionForm.initial)) = []
  /\ effects_of (@LegacyIndex.handleSubmit Examples.host
                  (Examples.legacy_with "2" "130" "70" "28" "")) = []
  /\ effects_of (Page.submit (succeeded Examples.resultA) Page.initial) = [].
Proof.
  destruct (@invalid_input_sends_no_request Examples.host) as (H1 & H2 & H3 & _).
  split; [|split].
  - apply (H1 PredictionForm.initial). reflexivity.
  - apply (H2 (Examples.legacy_with "2" "130" "70" "28" "")). reflexivity.
  - apply (H3 Page.initial (succeeded Examples.resultA)). reflexivity.
Defined.

(** *** The missing-field check *)

(** C6, as amended: a form with a field absent fails validation with the one
    error "All fields are required", which names no field, and this test
    comes first, before any text is parsed or any range compared.  In the
    single-page form a field is absent when its text is empty, and the
    result is the same whatever the parsers would make of the other fields;
    in the tabbed form the test looks at Pregnancies only and holds when it
    is [NaN]. *)
Theorem missing_field_check_first `{Host} :
  (forall s : LegacyIndex.State,
     Stated.some_absent (LegacyIndex.formData s) ->
     LegacyIndex.validateForm s =
       (false, LegacyIndex.with_error "All fields are required" s, []))
  /\ (forall s : PredictionForm.State,
     is_nan (Pregnancies (PredictionForm.formData s)) = true ->
     PredictionForm.validateForm s =
       (false, PredictionForm.with_error "All fields are required" s, [])).
Proof.
  split.
  - intros s Habsent. unfold LegacyIndex.validateForm. handler.
    destruct (_ || _) eqn:Htest; [reflexivity|].
    repeat (apply orb_false_elim in Htest as [Htest ?]).
    unfold JS.not_str in *.
    destruct Habsent as [E | [E | [E | [E | E]]]]; rewrite E in *; discriminate.
  - intros s Hnan. unfold PredictionForm.validateForm. handler.
    now rewrite missing_test, Hnan.
Qed.

Lemma missing_field_check_first_witness :
  @LegacyIndex.validateForm Examples.host (Examples.legacy_with "2" "130" "70" "28" "") =
    (false,
     LegacyIndex.with_error "All fields are required"
       (Examples.legacy_with "2" "130" "70" "28" ""), [])
  /\ PredictionForm.validateForm
       (Examples.form_with (set_field "Pregnancies" nan Examples.inputA)) =
     (false,
      PredictionForm.with_error "All fields are required"
        (Examples.form_with (set_field "Pregnancies" nan Examples.inputA)), []).
Proof.
  destruct (@missing_field_check_first Examples.host) as [H1 H2].
  split.
  - apply (H1 (Examples.legacy_with "2" "130" "70" "28" "")).
    unfold Stated.some_absent. do 4 right. reflexivity.
  - apply (H2 (Examples.form_with (set_field "Pregnancies" nan Examples.inputA))).
    reflexivity.
Defined.

(** C6, as worded, fails: with all five fields absent the error is "All
    fields are required"; it does not name Pregnancies, and it is the same
    text when Age alone is absent. *)
Lemma missing_field_not_named :
  LegacyIndex.error
    (state_of (@LegacyIndex.validateForm Examples.host LegacyIndex.initial))
    = "All fields are required"
  /\ LegacyIndex.error
       (state_of (@LegacyIndex.validateForm Examples.host
                    (Examples.legacy_with "2" "130" "70" "28" "")))
     = "All fields are required"
  /\ ~ Stated.missing_field_named.
Proof.
  split; [reflexivity|]. split; [reflexivity|].
  intros Hclaim. destruct (Hclaim Examples.host) as [_ Hnames].
  apply Hnames. reflexivity.
Qed.

(** *** The fields of the tabbed form *)

Section FormFields.
Context `{Host}.
Import PredictionForm FormTrace.

Lemma set_field_all (P : float -> Prop) (name : string) (v : float) (d : PredictionData) :
  P v -> all_fields P d -> all_fields P (set_field name v d).
Proof.
  intros Hv (H1 & H2 & H3 & H4 & H5). unfold set_field, all_fields.
  repeat case_decide; simpl; auto.
Qed.

Lemma handleSubmit_formData (s : State) :
  formData (state_of (handleSubmit s)) = formData s.
Proof.
  destruct (value_of (validateForm s)) eqn:Hv.
  - now rewrite (handleSubmit_valid s Hv).
  - destruct (handleSubmit_invalid s Hv) as (e & ->). reflexivity.
Qed.

Lemma handleSubmit_settled_formData (d : PredictionData)
    (r : Settled PredictionResult) (s : State) :
  formData (state_of (handleSubmit_settled d r s)) = formData s.
Proof.
  unfold handleSubmit_settled. destruct (attempt _ r); reflexivity.
Qed.

(** What holds of zero and of every coerced input holds of every field of
    every reachable state. *)
Lemma reachable_fields (accepts : string -> Prop) (P : float -> Prop) :
  P 0%float ->
  (forall value, accepts value -> P (JS.or (parseFloat value) 0)) ->
  forall s, reachable accepts s -> all_fields P (formData s).
Proof.
  intros H0 Hor s Hs. induction Hs as [|s name value _ IH Hv|s _ IH|s _ IH|s d r _ IH].
  - repeat split; exact H0.
  - apply set_field_all; [apply Hor, Hv | exact IH].
  - repeat split; exact H0.
  - now rewrite handleSubmit_formData.
  - now rewrite handleSubmit_settled_formData.
Qed.

(** Whatever text the inputs hand over, no field is ever [NaN], so the
    test for a missing field never holds. *)
Lemma reachable_never_missing (accepts : string -> Prop) (s : State) :
  reachable accepts s ->
  all_fields (fun x => is_nan x = false) (formData s)
  /\ (validateForm s = (true, s, [])
      \/ exists e, e <> "All fields are required"
                   /\ validateForm s = (false, with_error e s, [])).
Proof.
  intros Hs.
  assert (Hnan : all_fields (fun x => is_nan x = false) (formData s)).
  { apply (reachable_fields accepts); [reflexivity | | exact Hs].
    intros value _. apply or_zero_not_nan. }
  split; [exact Hnan|].
  destruct Hnan as (Hp & _).
  unfold validateForm. handler. rewrite missing_test, Hp.
  split_ifs; eauto; right; eexists; (split; [|reflexivity]); discriminate.
Qed.

End FormFields.

(** C10, as amended: in the tabbed form every change stores
    [parseFloat(value) || 0], so in every state the form reaches, whatever
    text is typed, no field is ever [NaN]: each holds a number, 0 by default,
    which is finite unless the text typed into it reads as an infinity.
    [validateForm] therefore never takes its "All fields are required"
    branch in a reachable state, and submitting the untouched form fails
    with the BMI range error, sending nothing. *)
Theorem form_fields_never_nan `{Host} (s : PredictionForm.State) :
  FormTrace.reachable FormTrace.any_text s ->
  FormTrace.all_fields (fun x => is_nan x = false) (PredictionForm.formData s)
  /\ (PredictionForm.validateForm s = (true, s, [])
      \/ exists e, e <> "All fields are required"
                   /\ PredictionForm.validateForm s =
                        (false, PredictionForm.with_error e s, []))
  /\ PredictionForm.handleSubmit PredictionForm.initial =
       (tt, PredictionForm.with_error "BMI must be between 10 and 70"
              PredictionForm.initial, [])
  /\ (FormTrace.reachable FormTrace.number_input s ->
      FormTrace.all_fields (fun x => is_finite x = true) (PredictionForm.formData s)).
Proof.
  intros Hs.
  destruct (reachable_never_missing FormTrace.any_text s Hs) as [Hnan Hbranch].
  split; [exact Hnan|]. split; [exact Hbranch|]. split; [reflexivity|].
  intros Hnumber.
  apply (reachable_fields FormTrace.number_input); [reflexivity | | exact Hnumber].
  intros value Hv. apply or_zero_finite, Hv.
Qed.

Lemma form_fields_never_nan_witness :
  FormTrace.all_fields (fun x => is_nan x = false)
    (PredictionForm.formData
       (state_of (@PredictionForm.handleInputChange Examples.large_host "BMI" "1e400"
                    PredictionForm.initial)))
  /\ FormTrace.all_fields (fun x => is_finite x = true)
       (PredictionForm.formData
          (state_of (@PredictionForm.handleInputChange Examples.host "BMI" "28"
                       PredictionForm.initial))).
Proof.
  split.
  - apply (@form_fields_never_nan Examples.large_host).
    apply (@FormTrace.reach_change Examples.large_host).
    + apply (@FormTrace.reach_initial Examples.large_host).
    + exact I.
  - apply (@form_fields_never_nan Examples.host).
    + apply (@FormTrace.reach_change Examples.host).
      * apply (@FormTrace.reach_initial Examples.host).
      * exact I.
    + apply (@FormTrace.reach_change Examples.host).
      * apply (@FormTrace.reach_initial Examples.host).
      * reflexivity.
Defined.

(** C10, as worded, fails: the text 1e400 typed into the Glucose input reads
    as an infinity, which is truthy and is stored as it is; the field then
    holds no finite number (and the next submission stops at the Glucose
    range check). *)
Lemma typed_infinity_is_kept :
  Glucose (PredictionForm.formData
             (state_of (@PredictionForm.handleInputChange Examples.large_host
                          "Glucose" "1e400" PredictionForm.initial)))
  = infinity
  /\ is_finite infinity = false
  /\ PredictionForm.error
       (state_of (PredictionForm.handleSubmit
                    (state_of (@PredictionForm.handleInputChange Examples.large_host
                                 "Glucose" "1e400" PredictionForm.initial))))
     = "Glucose must be between 0 and 300 mg/dL"
  /\ ~ Stated.fields_always_finite.
Proof.
  do 3 (split; [reflexivity|]).
  intros Hclaim.
  specialize (Hclaim Examples.large_host
                (state_of (@PredictionForm.handleInputChange Examples.large_host
                             "Glucose" "1e400" PredictionForm.initial))).
  destruct Hclaim as (_ & Hglucose & _).
  - apply (@FormTrace.reach_change Examples.large_host).
    + apply (@FormTrace.reach_initial Examples.large_host).
    + exact I.
  - discriminate Hglucose.
Qed.

(** *** Commits *)

Lemma page_submit_valid (r : Settled PredictionForm.PredictionResult) (p : Page.State) :
  value_of (PredictionForm.validateForm (Page.form p)) = true ->
  Page.submit r p =
    let formData := PredictionForm.formData (Page.form p) in
    let sent := Fetch (post "/predict" formData) in
    match attempt "Failed to get prediction" r with
    | inr data =>
        (tt,
         {| Page.index :=
              {| Index.currentPrediction := Some formData;
                 Index.refreshTrigger := Index.refreshTrigger (Page.index p) + 1 |};
            Page.form :=
              {| PredictionForm.formData := formData;
                 PredictionForm.loading := false;
                 PredictionForm.result := Some data;
                 PredictionForm.error := "" |} |},
         [sent; OnPredictionComplete formData;
          Toast {| title := "Prediction Complete";
                   description :=
                     if decide (PredictionForm.prediction data = "Diabetic")
                     then "Risk detected. Please consult a healthcare professional."
                     else "Low risk detected. Continue healthy habits!";
                   variant := None |}])
    | inl err =>
        (tt,
         {| Page.index := Page.index p;
            Page.form :=
              {| PredictionForm.formData := formData;
                 PredictionForm.loading := false;
                 PredictionForm.result := None;
                 PredictionForm.error := message_or err "Failed to connect to API" |} |},
         [sent;
          Toast {| title := "Error";
                   description := message_or err "Failed to connect to API";
                   variant := Some "destructive" |}])
    end.
Proof.
  intros Hv. unfold Page.submit, Page.in_form.
  rewrite (handleSubmit_valid _ Hv). cbn [Page.callbacks requests omap].
  unfold PredictionForm.handleSubmit_settled.
  destruct (attempt _ r) as [err | data]; reflexivity.
Qed.

(** C2, as amended: a submission that passes validation sends one predict
    request.  When it succeeds, the page installs the submitted input and
    adds exactly one to the revision, the form shows the new result, and the
    callback and a toast follow; when it fails in any way, the page keeps its
    input and revision and the error text and a destructive toast carry the
    failure, while the result the form showed is cleared.  Two successful
    submissions in a row, whatever valid input the second carries, leave
    revisions one apart. *)
Theorem commit_installs_on_success_only :
  (forall (p : Page.State) (r : Settled PredictionForm.PredictionResult),
     value_of (PredictionForm.validateForm (Page.form p)) = true ->
     let p' := state_of (Page.submit r p) in
     let es := effects_of (Page.submit r p) in
     requests es = [post "/predict" (PredictionForm.formData (Page.form p))]
     /\ match attempt "Failed to get prediction" r with
        | inr data =>
            Index.currentPrediction (Page.index p')
              = Some (PredictionForm.formData (Page.form p))
            /\ Index.refreshTrigger (Page.index p')
               = Index.refreshTrigger (Page.index p) + 1
            /\ PredictionForm.result (Page.form p') = Some data
            /\ PredictionForm.error (Page.form p') = ""
            /\ OnPredictionComplete (PredictionForm.formData (Page.form p)) ∈ es
        | inl err =>
            Page.index p' = Page.index p
            /\ PredictionForm.result (Page.form p') = None
            /\ PredictionForm.error (Page.form p')
               = message_or err "Failed to connect to API"
            /\ toasts es = [{| title := "Error";
                               description := message_or err "Failed to connect to API";
                               variant := Some "destructive" |}]
        end)
  /\ (forall (p : Page.State) (next : PredictionForm.State)
            (a b : PredictionForm.PredictionResult),
     value_of (PredictionForm.validateForm (Page.form p)) = true ->
     value_of (PredictionForm.validateForm next) = true ->
     let p1 := state_of (Page.submit (succeeded a) p) in
     let p2 := state_of (Page.submit (succeeded b)
                           {| Page.index := Page.index p1; Page.form := next |}) in
     Index.refreshTrigger (Page.index p2) = Index.refreshTrigger (Page.index p1) + 1).
Proof.
  split.
  - intros p r Hv p' es. subst p' es. rewrite (page_submit_valid r p Hv).
    destruct (attempt _ r) as [err | data]; cbn; repeat split.
    apply list_elem_of_further, list_elem_of_here.
  - intros p next a b Hp Hnext p1 p2. subst p1 p2.
    rewrite (page_submit_valid (succeeded b)); [reflexivity | exact Hnext].
Qed.

Lemma commit_installs_on_success_only_witness :
  Index.refreshTrigger (Page.index Examples.committedA) = 1
  /\ Page.index (state_of (Page.submit (inl (ErrorObj "Failed to fetch")) Examples.committedA))
     = Page.index Examples.committedA
  /\ Index.refreshTrigger
       (Page.index
          (state_of (Page.submit (succeeded Examples.resultA)
                       {| Page.index := Page.index Examples.committedA;
                          Page.form := Examples.form_with Examples.inputB |})))
     = 1 + 1.
Proof.
  destruct commit_installs_on_success_only as [Hone Htwo].
  split; [|split].
  - apply (Hone {| Page.index := Index.initial;
                   Page.form := Examples.form_with Examples.inputA |}
                (succeeded Examples.resultA)).
    reflexivity.
  - apply (Hone Examples.committedA (inl (ErrorObj "Failed to fetch"))).
    reflexivity.
  - apply (Htwo {| Page.index := Index.initial;
                   Page.form := Examples.form_with Examples.inputA |}
                (Examples.form_with Examples.inputB) Examples.resultA Examples.resultA);
      reflexivity.
Defined.

(** C2, as worded, fails: once [inputA] is committed with its result, a
    submission whose request is rejected keeps the page's input and revision
    but leaves the form without the committed result. *)
Lemma failed_commit_clears_result :
  Stated.canonical_pair Examples.committedA
    = (Some Examples.inputA, Some Examples.resultA)
  /\ Stated.canonical_pair
       (state_of (Page.submit (inl (ErrorObj "Failed to fetch")) Examples.committedA))
     = (Some Examples.inputA, None)
  /\ ~ Stated.failed_commit_keeps_pair.
Proof.
  split; [reflexivity|]. split; [reflexivity|].
  intros Hclaim.
  destruct (Hclaim Examples.committedA (inl (ErrorObj "Failed to fetch")) I) as [Hpair _].
  discriminate Hpair.
Qed.

(** *** Responses for an earlier input *)

(** C1, as amended: the analysis view keeps no revision with its requests
    and checks none when they settle.  Every response is applied on arrival,
    whether or not the page has committed a newer input since: a decoded
    body becomes the view's data, a failure becomes its error text, and the
    spinner stops; the page state is not touched. *)
Theorem response_applied_on_arrival (s : Session.State) (n : nat) (p : Session.Pending)
    (r : Settled DetailedAnalysis.DetailedPrediction) :
  Session.in_flight s !! n = Some p ->
  Session.index (Session.arrive n r s) = Session.index s
  /\ Session.analysis (Session.arrive n r s) =
     match attempt "Failed to fetch detailed analysis" r with
     | inr result =>
         {| DetailedAnalysis.loading := false;
            DetailedAnalysis.data := Some result;
            DetailedAnalysis.error := DetailedAnalysis.error (Session.analysis s) |}
     | inl err =>
         {| DetailedAnalysis.loading := false;
            DetailedAnalysis.data := DetailedAnalysis.data (Session.analysis s);
            DetailedAnalysis.error := message_or err "Failed to load analysis" |}
     end.
Proof.
  intros Hp. unfold Session.arrive. rewrite Hp. split; [reflexivity|].
  unfold DetailedAnalysis.fetchDetailedPrediction_settled.
  destruct (attempt _ r); reflexivity.
Qed.

Lemma response_applied_on_arrival_witness :
  DetailedAnalysis.data
    (Session.analysis (Session.arrive 0 (succeeded Examples.detailedA) Examples.answeredB))
  = Some Examples.detailedA.
Proof.
  pose proof (response_applied_on_arrival Examples.answeredB 0
                {| Session.issued_at := 1; Session.issued_for := Examples.inputA |}
                (succeeded Examples.detailedA) eq_refl) as [_ Happlied].
  rewrite Happlied. reflexivity.
Defined.

(** C1, as worded, fails: [inputA] is committed, then [inputB]; the answer
    for [inputB] arrives and is shown; the answer for [inputA], sent at
    revision 1, arrives at revision 2 and replaces it. *)
Lemma stale_response_overwrites :
  Index.refreshTrigger (Session.index Examples.answeredB) = 2
  /\ Index.currentPrediction (Session.index Examples.answeredB) = Some Examples.inputB
  /\ Session.in_flight Examples.answeredB
     = [{| Session.issued_at := 1; Session.issued_for := Examples.inputA |}]
  /\ DetailedAnalysis.data (Session.analysis Examples.answeredB) = Some Examples.detailedB
  /\ DetailedAnalysis.data
       (Session.analysis
          (Session.arrive 0 (succeeded Examples.detailedA) Examples.answeredB))
     = Some Examples.detailedA
  /\ ~ Stated.stale_response_discarded.
Proof.
  do 5 (split; [reflexivity|]).
  intros Hclaim.
  specialize (Hclaim Examples.answeredB 0%nat
                {| Session.issued_at := 1; Session.issued_for := Examples.inputA |}
                (succeeded Examples.detailedA) eq_refl).
  assert (Hstale : Session.stale
                     {| Session.issued_at := 1; Session.issued_for := Examples.inputA |}
                     Examples.answeredB) by (intros E; discriminate E).
  apply Hclaim in Hstale.
  apply (f_equal DetailedAnalysis.data) in Hstale.
  apply (f_equal (fmap DetailedAnalysis.prediction)) in Hstale.
  discriminate Hstale.
Qed.

(** *** The what-if view *)

(** C4, as amended: the what-if view builds no modified input and validates
    nothing against the declared ranges.  With a value entered, whatever it
    is, it sends one request whose body is the baseline input unchanged and
    whose query carries the feature name and the text of the new value; the
    one test before the network is that the value is not empty, which ends
    in a toast and no request. *)
Theorem what_if_sends_baseline (initialData : PredictionData) (s : WhatIfAnalysis.State) :
  WhatIfAnalysis.handleAnalyze initialData s =
    if decide (WhatIfAnalysis.newValue s = "") then
      (tt, s, [Toast {| title := "Error"; description := "Please enter a value";
                        variant := Some "destructive" |}])
    else
      (tt,
       {| WhatIfAnalysis.selectedFeature := WhatIfAnalysis.selectedFeature s;
          WhatIfAnalysis.newValue := WhatIfAnalysis.newValue s;
          WhatIfAnalysis.loading := true;
          WhatIfAnalysis.result := WhatIfAnalysis.result s |},
       [Fetch {| url := API_BASE_URL +:+ "/what_if?modified_feature="
                        +:+ WhatIfAnalysis.selectedFeature s
                        +:+ "&new_value=" +:+ WhatIfAnalysis.newValue s;
                 method := "POST";
                 headers := [("Content-Type", "application/json")];
                 body := Some initialData |}]).
Proof.
  unfold WhatIfAnalysis.handleAnalyze, JS.not_str. handler.
  destruct (decide (WhatIfAnalysis.newValue s = "")) as [E | E].
  - rewrite (bool_decide_eq_true_2 _ E). now destruct s.
  - rewrite (bool_decide_eq_false_2 _ E). reflexivity.
Qed.

(** C4, as worded, fails: with Glucose selected, declared from 0 to 300, and
    the new value 999, the request is sent, its body the baseline with
    Glucose still 130. *)
Lemma out_of_range_override_is_sent :
  WhatIfAnalysis.selectedFeatureInfo (Examples.whatif_with "Glucose" "999" None)
    = Some {| WhatIfAnalysis.name := "Glucose"; WhatIfAnalysis.min := 0;
              WhatIfAnalysis.max := 300; WhatIfAnalysis.step := 1 |}
  /\ @parseFloat Examples.host "999" = 999%float
  /\ requests (effects_of (WhatIfAnalysis.handleAnalyze Examples.inputA
                             (Examples.whatif_with "Glucose" "999" None)))
     = [{| url := "http://127.0.0.1:8000/what_if?modified_feature=Glucose&new_value=999";
           method := "POST";
           headers := [("Content-Type", "application/json")];
           body := Some Examples.inputA |}]
  /\ ~ Stated.override_validated.
Proof.
  do 3 (split; [reflexivity|]).
  intros Hclaim.
  specialize (Hclaim Examples.host Examples.inputA
                (Examples.whatif_with "Glucose" "999" None)).
  assert (Hout : @Stated.override_out_of_range Examples.host
                   (Examples.whatif_with "Glucose" "999" None)).
  { eexists. split; [reflexivity|]. right. reflexivity. }
  apply Hclaim in Hout. discriminate Hout.
Qed.

(** C5: the service's change is the modified probability minus the original
    one, and the view's classification follows its sign and nothing else: a
    result counts as an improvement exactly when the change is below zero,
    and the border, the icon, the colour and the advice of the alert all go
    with that one test.  From 0.30 to 0.22 the change shows as -0.08 and is
    an improvement; from 0.30 to 0.41 it shows as 0.11 and is not. *)
Theorem improvement_follows_sign (s : WhatIfAnalysis.State)
    (r : WhatIfAnalysis.WhatIfResult) :
  WhatIfAnalysis.result s = Some r ->
  (forall op o mp m,
     WhatIfAnalysis.probability_change (WhatIfAnalysis.what_if_response op o mp m)
     = (m - o)%float)
  /\ WhatIfAnalysis.isImprovement s = (WhatIfAnalysis.probability_change r <? 0)%float
  /\ (exists a,
        WhatIfAnalysis.renderAlert s = Some a
        /\ WhatIfAnalysis.alertClass a
           = (if (WhatIfAnalysis.probability_change r <? 0)%float
              then "mt-6 border-success" else "mt-6 border-destructive")
        /\ WhatIfAnalysis.icon a
           = (if (WhatIfAnalysis.probability_change r <? 0)%float
              then "TrendingDown" else "TrendingUp")
        /\ WhatIfAnalysis.changeClass a
           = (if (WhatIfAnalysis.probability_change r <? 0)%float
              then "text-success" else "text-destructive")
        /\ WhatIfAnalysis.advice a
           = (if (WhatIfAnalysis.probability_change r <? 0)%float
              then "Lowering this metric improves your risk profile"
              else "This change increases diabetes risk"))
  /\ (let better := WhatIfAnalysis.what_if_response "Diabetic" 0.30 "Non-Diabetic" 0.22 in
      JS.toFixed (WhatIfAnalysis.probability_change better) 2 = JS.Plain "-0.08"
      /\ WhatIfAnalysis.isImprovement (Examples.whatif_with "Glucose" "110" (Some better))
         = true
      /\ (fun a => (WhatIfAnalysis.changeSign a, WhatIfAnalysis.changePercent a))
           <$> WhatIfAnalysis.renderAlert (Examples.whatif_with "Glucose" "110" (Some better))
         = Some ("", JS.Plain "-8.00"))
  /\ (let worse := WhatIfAnalysis.what_if_response "Diabetic" 0.30 "Diabetic" 0.41 in
      JS.toFixed (WhatIfAnalysis.probability_change worse) 2 = JS.Plain "0.11"
      /\ WhatIfAnalysis.isImprovement (Examples.whatif_with "Glucose" "180" (Some worse))
         = false
      /\ (fun a => (WhatIfAnalysis.changeSign a, WhatIfAnalysis.changePercent a))
           <$> WhatIfAnalysis.renderAlert (Examples.whatif_with "Glucose" "180" (Some worse))
         = Some ("+", JS.Plain "11.00")).
Proof.
  intros Hr. split; [reflexivity|].
  assert (Himp : WhatIfAnalysis.isImprovement s
                 = (WhatIfAnalysis.probability_change r <? 0)%float).
  { unfold WhatIfAnalysis.isImprovement. now rewrite Hr. }
  split; [exact Himp|]. split.
  - unfold WhatIfAnalysis.renderAlert. rewrite Hr, Himp.
    eexists. split; [reflexivity|].
    destruct (WhatIfAnalysis.probability_change r <? 0)%float; repeat split.
  - split; repeat split; vm_compute; reflexivity.
Qed.

Lemma improvement_follows_sign_witness :
  WhatIfAnalysis.isImprovement
    (Examples.whatif_with "Glucose" "110"
       (Some (WhatIfAnalysis.what_if_response "Diabetic" 0.30 "Non-Diabetic" 0.22)))
  = (0.22 - 0.30 <? 0)%float.
Proof.
  apply (improvement_follows_sign
           (Examples.whatif_with "Glucose" "110"
              (Some (WhatIfAnalysis.what_if_response "Diabetic" 0.30 "Non-Diabetic" 0.22)))
           (WhatIfAnalysis.what_if_response "Diabetic" 0.30 "Non-Diabetic" 0.22)).
  reflexivity.
Defined.

(** *** The history view *)




(** C8, as amended: the trend holds one point for each entry, in the reverse
    of the entries' order: the entry at index [i] of [n] makes the point at
    index [n - 1 - i], which keeps the label ["#" (i + 1)] of its entry; the
    point's probability is the entry's probability times 100 in the text
    [toFixed(2)] gives. *)
Theorem trend_is_reversed `{Host} (d : PredictionHistory.HistoryData) (i : nat)
    (log : PredictionHistory.PredictionLog) :
  PredictionHistory.recent_predictions d !! i = Some log ->
  length (PredictionHistory.chartData d) = length (PredictionHistory.recent_predictions d)
  /\ PredictionHistory.chartData d
       !! (length (PredictionHistory.recent_predictions d) - 1 - i)%nat
     = Some (PredictionHistory.chartPoint i log)
  /\ PredictionHistory.name (PredictionHistory.chartPoint i log)
     = "#" +:+ pretty (i + 1)%nat
  /\ PredictionHistory.chart_probability (PredictionHistory.chartPoint i log)
     = JS.toFixed (PredictionHistory.probability log * 100) 2.
Proof.
  intros Hlog. unfold PredictionHistory.chartData.
  pose proof (lookup_lt_Some _ _ _ Hlog) as Hi.
  split; [now rewrite length_reverse, length_imap|].
  split; [|split; reflexivity].
  rewrite reverse_lookup by (rewrite length_imap; lia).
  rewrite length_imap, list_lookup_imap.
  replace (length (PredictionHistory.recent_predictions d)
           - S (length (PredictionHistory.recent_predictions d) - 1 - i))%nat
    with i by lia.
  now rewrite Hlog.
Qed.

Lemma trend_is_reversed_witness :
  @PredictionHistory.chartData Examples.host
    (Examples.history 2 [Examples.log 0.2; Examples.log 0.8]) !! 1%nat
  = Some (@PredictionHistory.chartPoint Examples.host 0 (Examples.log 0.2)).
Proof.
  apply (@trend_is_reversed Examples.host
           (Examples.history 2 [Examples.log 0.2; Examples.log 0.8]) 0 (Examples.log 0.2)).
  reflexivity.
Defined.

(** C8, as worded, fails: of the entries with probabilities 0.2 and 0.8 the
    first point of the trend is "#2" with "80.00", made from the second
    entry. *)
Lemma trend_order_not_kept :
  @PredictionHistory.chartData Examples.host
    (Examples.history 2 [Examples.log 0.2; Examples.log 0.8]) !! 0%nat
  = Some {| PredictionHistory.name := "#2";
            PredictionHistory.chart_probability := JS.Plain "80.00";
            PredictionHistory.chart_timestamp := "2025-01-01T10:00:00" |}
  /\ ~ Stated.trend_keeps_order.
Proof.
  split; [reflexivity|].
  intros Hclaim.
  specialize (Hclaim Examples.host
                (Examples.history 2 [Examples.log 0.2; Examples.log 0.8]) 0%nat).
  apply (f_equal (fmap PredictionHistory.name)) in Hclaim.
  vm_compute in Hclaim. discriminate Hclaim.
Qed.

(** *** The risk map *)

Lemma tiers_counted (data : list RiskAssessment.RiskAssessmentData)
    (tiers : list Stated.RiskTier) :
  Forall2 (fun d t => Stated.tier_of (RiskAssessment.risk_level d) = Some t) data tiers ->
  RiskAssessment.highRiskCount data = Stated.count Stated.High tiers
  /\ RiskAssessment.mediumRiskCount data = Stated.count Stated.Medium tiers
  /\ Z.of_nat (length data)
     = Stated.count Stated.High tiers + Stated.count Stated.Medium tiers
       + Stated.count Stated.Low tiers.
Proof.
  unfold RiskAssessment.highRiskCount, RiskAssessment.mediumRiskCount.
  induction 1 as [|d t data tiers Ht _ (IHh & IHm & IHl)]; [done|].
  rewrite !filter_cons. cbn [Stated.count length].
  unfold Stated.tier_of in Ht.
  repeat case_decide; try congruence; simplify_eq; cbn [Stated.is_tier length]; lia.
Qed.

(** C9: over a list whose risk levels are the three tiers, the count shown
    for High is the number of High entries, the one for Medium the number of
    Medium entries, the one for Low the number of Low entries, and the three
    add up to the length of the list. *)
Theorem risk_tier_counts (data : list RiskAssessment.RiskAssessmentData)
    (tiers : list Stated.RiskTier) :
  Forall2 (fun d t => Stated.tier_of (RiskAssessment.risk_level d) = Some t) data tiers ->
  RiskAssessment.highRiskCount data = Stated.count Stated.High tiers
  /\ RiskAssessment.mediumRiskCount data = Stated.count Stated.Medium tiers
  /\ RiskAssessment.lowRiskShown data = Stated.count Stated.Low tiers
  /\ RiskAssessment.highRiskCount data + RiskAssessment.mediumRiskCount data
     + RiskAssessment.lowRiskShown data = Z.of_nat (length tiers).
Proof.
  intros Htiers. pose proof (Forall2_length _ _ _ Htiers) as Hlen.
  destruct (tiers_counted data tiers Htiers) as (Hh & Hm & Hl).
  unfold RiskAssessment.lowRiskShown. rewrite Hh, Hm. lia.
Qed.

Lemma risk_tier_counts_witness :
  RiskAssessment.highRiskCount
    [Examples.risk "Glucose" "High"; Examples.risk "BMI" "Low";
     Examples.risk "Age" "Low"; Examples.risk "BloodPressure" "Medium"] = 1
  /\ RiskAssessment.lowRiskShown
       [Examples.risk "Glucose" "High"; Examples.risk "BMI" "Low";
        Examples.risk "Age" "Low"; Examples.risk "BloodPressure" "Medium"] = 2.
Proof.
  pose proof (risk_tier_counts
                [Examples.risk "Glucose" "High"; Examples.risk "BMI" "Low";
                 Examples.risk "Age" "Low"; Examples.risk "BloodPressure" "Medium"]
                [Stated.High; Stated.Low; Stated.Low; Stated.Medium]) as Hcounts.
  destruct Hcounts as (Hh & _ & Hl & _).
  - repeat constructor.
  - split; [exact Hh | exact Hl].
Defined.

(** * Beyond the claims *)

(** *** Order on numbers *)

Lemma SFcompare_antisym (x y : spec_float) :
  SFcompare y x = option_map CompOpp (SFcompare x y).
Proof.
  destruct x as [[]|[]| |[] mx ex], y as [[]|[]| |[] my ey]; try reflexivity;
    cbn [SFcompare option_map]; f_equal;
    rewrite (Z.compare_antisym ey ex);
    destruct (ey ?= ex)%Z; cbn [CompOpp]; try reflexivity;
    rewrite (Pos.compare_cont_antisym mx my Eq); cbn [CompOpp];
    now rewrite ?CompOpp_involutive.
Qed.

Lemma is_nan_false_Prim2SF (x : float) : is_nan x = false -> Prim2SF x <> S754_nan.
Proof.
  unfold is_nan. rewrite eqb_spec. intros Hx E. rewrite E in Hx. discriminate.
Qed.

Lemma SFcompare_not_nan (x y : spec_float) :
  x <> S754_nan -> y <> S754_nan -> exists c, SFcompare x y = Some c.
Proof.
  intros Hx Hy. destruct x as [[]|[]| |[] mx ex], y as [[]|[]| |[] my ey];
    try congruence; cbn [SFcompare]; eauto.
Qed.

Lemma nan_ltb_l (x y : float) : is_nan x = true -> (x <? y)%float = false.
Proof. intros Hx. rewrite ltb_spec, (is_nan_Prim2SF x Hx). reflexivity. Qed.

Lemma nan_ltb_r (x y : float) : is_nan x = true -> (y <? x)%float = false.
Proof.
  intros Hx. rewrite ltb_spec, (is_nan_Prim2SF x Hx).
  unfold SFltb, SFcompare. now destruct (Prim2SF y) as [[]|[]| |[] m e].
Qed.

Lemma nan_leb_l (x y : float) : is_nan x = true -> (x <=? y)%float = false.
Proof. intros Hx. rewrite leb_spec, (is_nan_Prim2SF x Hx). reflexivity. Qed.

Lemma nan_leb_r (x y : float) : is_nan x = true -> (y <=? x)%float = false.
Proof.
  intros Hx. rewrite leb_spec, (is_nan_Prim2SF x Hx).
  unfold SFleb, SFcompare. now destruct (Prim2SF y) as [[]|[]| |[] m e].
Qed.

(** Between numbers, [x < y] fails exactly when [y <= x]. *)
Lemma ltb_leb (x y : float) :
  is_nan x = false -> is_nan y = false ->
  (x <? y)%float = negb (y <=? x)%float.
Proof.
  intros Hx%is_nan_false_Prim2SF Hy%is_nan_false_Prim2SF.
  rewrite ltb_spec, leb_spec. unfold SFltb, SFleb.
  rewrite (SFcompare_antisym (Prim2SF x) (Prim2SF y)).
  destruct (SFcompare_not_nan _ _ Hx Hy) as [c ->]. now destruct c.
Qed.

(** A range test of the forms, [x < lo || x > hi], on a number and on [NaN]. *)
Lemma range_test (lo hi x : float) :
  is_nan lo = false -> is_nan hi = false ->
  JS.lt x lo || JS.gt x hi = negb (is_nan x || JS.within lo hi x).
Proof.
  intros Hlo Hhi. unfold JS.lt, JS.gt, JS.within.
  destruct (is_nan x) eqn:Hx; cbn [orb negb].
  - now rewrite (nan_ltb_l x lo Hx), (nan_ltb_r x hi Hx).
  - rewrite (ltb_leb x lo Hx Hlo), (ltb_leb hi x Hhi Hx).
    now destruct (lo <=? x)%float, (x <=? hi)%float.
Qed.

Lemma nan_within (lo hi x : float) : is_nan x = true -> JS.within lo hi x = false.
Proof. intros Hx. unfold JS.within. now rewrite (nan_leb_r x lo Hx). Qed.

Lemma within_not_nan (lo hi x : float) : JS.within lo hi x = true -> is_nan x = false.
Proof.
  intros Hw. destruct (is_nan x) eqn:Hx; [|reflexivity].
  now rewrite (nan_within lo hi x Hx) in Hw.
Qed.

(** *** What validation lets through *)

Lemma validateForm_value (s : PredictionForm.State) :
  value_of (PredictionForm.validateForm s) = Ranges.passes (PredictionForm.formData s).
Proof.
  unfold PredictionForm.validateForm, Ranges.passes, Ranges.within_or_nan. handler.
  rewrite missing_test, !range_test by reflexivity.
  destruct (is_nan (Pregnancies (PredictionForm.formData s))) eqn:Hp; cbn [orb negb].
  - now rewrite (nan_within _ _ _ Hp).
  - destruct (JS.within 0 20 _); cbn [negb andb]; [|reflexivity].
    repeat (match goal with
            | |- context [is_nan ?x || JS.within ?lo ?hi ?x] =>
                destruct (is_nan x || JS.within lo hi x)
            end; cbn [negb andb]; try reflexivity).
Qed.

Lemma passes_in_ranges (d : PredictionData) :
  FormTrace.all_fields (fun x => is_nan x = false) d ->
  Ranges.passes d = Ranges.in_ranges d.
Proof.
  intros (_ & Hg & Hb & Hm & Ha).
  unfold Ranges.passes, Ranges.in_ranges, Ranges.within_or_nan.
  now rewrite Hg, Hb, Hm, Ha.
Qed.

(** X1: the tabbed form's [validateForm] returns [true] exactly when
    Pregnancies lies within 0 and 20 and each of the other four fields lies
    within its closed range or is [NaN]: the comparisons of a range check all
    fail on [NaN], and only Pregnancies is tested for it.  A submission sends
    its one request, carrying the form's data as they are, exactly then. *)
Theorem tabbed_validation_accepts (s : PredictionForm.State) :
  value_of (PredictionForm.validateForm s) = Ranges.passes (PredictionForm.formData s)
  /\ requests (effects_of (PredictionForm.handleSubmit s))
     = if Ranges.passes (PredictionForm.formData s)
       then [post "/predict" (PredictionForm.formData s)]
       else [].
Proof.
  split; [apply validateForm_value|].
  rewrite <- validateForm_value.
  destruct (value_of (PredictionForm.validateForm s)) eqn:Hv.
  - now rewrite (handleSubmit_valid s Hv).
  - destruct (handleSubmit_invalid s Hv) as (e & ->). reflexivity.
Qed.

Lemma legacy_validateForm_value `{Host} (s : LegacyIndex.State) :
  value_of (LegacyIndex.validateForm s) = Ranges.legacy_passes (LegacyIndex.formData s).
Proof.
  unfold LegacyIndex.validateForm, Ranges.legacy_passes, Ranges.within_or_nan,
    Ranges.parsed. handler. cbn [Pregnancies Glucose BloodPressure BMI Age].
  rewrite !range_test by reflexivity.
  destruct (_ || _ || _ || _ || _); cbn [negb andb]; [reflexivity|].
  repeat (match goal with
          | |- context [is_nan ?x || JS.within ?lo ?hi ?x] =>
              destruct (is_nan x || JS.within lo hi x)
          end; cbn [negb andb]; try reflexivity).
Qed.

(** X2: the single-page form's [validateForm] returns [true] exactly when
    none of the five texts is empty and each parsed field lies within its
    closed range or is [NaN]; so text that does not parse as a number passes,
    and the request then carries the parsed values, [NaN] included. *)
Theorem legacy_validation_accepts `{Host} (s : LegacyIndex.State) :
  value_of (LegacyIndex.validateForm s) = Ranges.legacy_passes (LegacyIndex.formData s)
  /\ requests (effects_of (LegacyIndex.handleSubmit s))
     = if Ranges.legacy_passes (LegacyIndex.formData s)
       then [post "/predict" (Ranges.parsed (LegacyIndex.formData s))]
       else [].
Proof.
  split; [apply legacy_validateForm_value|].
  rewrite <- legacy_validateForm_value.
  destruct (value_of (LegacyIndex.validateForm s)) eqn:Hv.
  - unfold LegacyIndex.handleSubmit.
    destruct (legacy_validateForm_shape s) as [E | (e & E)].
    + unfold bind at 1. rewrite E. reflexivity.
    + rewrite E in Hv. discriminate.
  - destruct (legacy_handleSubmit_invalid s Hv) as (e & ->). reflexivity.
Qed.

(** *** What the page holds *)

Section PageInvariant.
Context `{Host}.

Lemma in_form_quiet (h : M PredictionForm.State unit) (p : Page.State) :
  effects_of (h (Page.form p)) = [] ->
  state_of (Page.in_form h p)
  = {| Page.index := Page.index p; Page.form := state_of (h (Page.form p)) |}.
Proof.
  unfold Page.in_form, effects_of, state_of.
  destruct (h (Page.form p)) as [[[] f] es]. cbn. now intros ->.
Qed.

Lemma page_form_reachable (p : Page.State) :
  PageTrace.reachable p -> FormTrace.reachable FormTrace.any_text (Page.form p).
Proof.
  induction 1 as [|p name value _ IH|p _ IH|p r _ IH].
  - apply FormTrace.reach_initial.
  - rewrite in_form_quiet by reflexivity.
    now apply FormTrace.reach_change.
  - rewrite in_form_quiet by reflexivity.
    now apply FormTrace.reach_reset.
  - destruct (value_of (PredictionForm.validateForm (Page.form p))) eqn:Hv.
    + replace (Page.form (state_of (Page.submit r p)))
        with (state_of (PredictionForm.handleSubmit_settled
                          (PredictionForm.formData (Page.form p)) r
                          (state_of (PredictionForm.handleSubmit (Page.form p))))).
      { now apply FormTrace.reach_settled, FormTrace.reach_submit. }
      rewrite (page_submit_valid r p Hv), (handleSubmit_valid _ Hv).
      unfold PredictionForm.handleSubmit_settled.
      destruct (attempt _ r); reflexivity.
    + replace (Page.form (state_of (Page.submit r p)))
        with (state_of (PredictionForm.handleSubmit (Page.form p))).
      { now apply FormTrace.reach_submit. }
      destruct (page_submit_invalid r p Hv) as (e & E). rewrite E.
      destruct (handleSubmit_invalid _ Hv) as (e' & E').
      rewrite E' in *. cbn.
      unfold Page.submit, Page.in_form in E. rewrite E' in E. cbn in E.
      now inversion E.
Qed.

Lemma page_submit_index (r : Settled PredictionForm.PredictionResult) (p : Page.State) :
  Page.index (state_of (Page.submit r p))
  = match attempt "Failed to get prediction" r with
    | inr _ =>
        if Ranges.passes (PredictionForm.formData (Page.form p))
        then {| Index.currentPrediction := Some (PredictionForm.formData (Page.form p));
                Index.refreshTrigger := Index.refreshTrigger (Page.index p) + 1 |}
        else Page.index p
    | inl _ => Page.index p
    end.
Proof.
  rewrite <- validateForm_value.
  destruct (value_of (PredictionForm.validateForm (Page.form p))) eqn:Hv.
  - rewrite (page_submit_valid r p Hv). now destruct (attempt _ r).
  - destruct (page_submit_invalid r p Hv) as (e & ->). now destruct (attempt _ r).
Qed.

End PageInvariant.

(** X3: whatever is typed into the tabbed form and however its requests
    settle, the page's revision never goes below zero, the page holds an
    input exactly when the revision is above zero, and the input it holds,
    the one handed to every dependent view, has each of its five fields
    within its closed range. *)
Theorem page_holds_validated_input `{Host} (p : Page.State) :
  PageTrace.reachable p ->
  0 <= Index.refreshTrigger (Page.index p)
  /\ (Index.currentPrediction (Page.index p) = None
      <-> Index.refreshTrigger (Page.index p) = 0)
  /\ (forall d, Index.currentPrediction (Page.index p) = Some d ->
                Ranges.in_ranges d = true).
Proof.
  induction 1 as [|p name value Hp IH|p Hp IH|p r Hp IH].
  - cbn. split; [lia|]. split; [split; reflexivity | intros d [=]].
  - now rewrite in_form_quiet by reflexivity.
  - now rewrite in_form_quiet by reflexivity.
  - rewrite page_submit_index.
    destruct (attempt _ r) as [err | data]; [exact IH|].
    destruct (Ranges.passes _) eqn:Hpass; [|exact IH].
    destruct IH as (Hpos & _ & _). cbn. split; [lia|]. split.
    + split; [discriminate | lia].
    + intros d [= <-].
      rewrite <- passes_in_ranges; [exact Hpass|].
      apply (reachable_fields FormTrace.any_text);
        [reflexivity | | now apply page_form_reachable].
      intros value _. apply or_zero_not_nan.
Qed.

Lemma page_holds_validated_input_witness :
  Ranges.in_ranges (mkPredictionData 0 0 0 28 45) = true.
Proof.
  refine (proj2 (proj2 (@page_holds_validated_input Examples.host
                          (state_of (Page.submit (succeeded Examples.resultA)
                             (state_of (Page.in_form
                                (@PredictionForm.handleInputChange Examples.host "Age" "45")
                                (state_of (Page.in_form
                                   (@PredictionForm.handleInputChange Examples.host "BMI" "28")
                                   Page.initial))))))
                          _)) _ _).
  - apply (@PageTrace.reach_submit Examples.host).
    apply (@PageTrace.reach_change Examples.host).
    apply (@PageTrace.reach_change Examples.host).
    apply (@PageTrace.reach_initial Examples.host).
  - reflexivity.
Defined.

(** *** Changes to the form compose *)

(** X4: in the tabbed form, for the names of two different fields: a change
    stores [parseFloat(value) || 0] in the field it names and leaves the
    other field as it was; changes to the two fields can be made in either
    order with the same outcome; of two changes to one field the later one
    stands; and a reset wipes out whatever was typed before it. *)
Theorem input_changes_compose `{Host} (s : PredictionForm.State)
    (name1 name2 value1 value2 : string) :
  name1 ∈ field_names -> name2 ∈ field_names -> name1 <> name2 ->
  let changed := state_of (PredictionForm.handleInputChange name1 value1 s) in
  field name1 (PredictionForm.formData changed) = Some (JS.or (parseFloat value1) 0)
  /\ field name2 (PredictionForm.formData changed)
     = field name2 (PredictionForm.formData s)
  /\ state_of (PredictionForm.handleInputChange name2 value2 changed)
     = state_of (PredictionForm.handleInputChange name1 value1
                   (state_of (PredictionForm.handleInputChange name2 value2 s)))
  /\ state_of (PredictionForm.handleInputChange name1 value2 changed)
     = state_of (PredictionForm.handleInputChange name1 value2 s)
  /\ state_of (PredictionForm.resetForm changed)
     = state_of (PredictionForm.resetForm s).
Proof.
  intros H1 H2 Hne changed. subst changed.
  unfold field_names in H1, H2.
  rewrite !elem_of_cons, elem_of_nil in H1, H2.
  unfold PredictionForm.handleInputChange, PredictionForm.resetForm.
  handler. unfold PredictionForm.with_error. cbn.
  destruct H1 as [-> | [-> | [-> | [-> | [-> | []]]]]];
    destruct H2 as [-> | [-> | [-> | [-> | [-> | []]]]]];
    try congruence; repeat split.
Qed.

Lemma input_changes_compose_witness :
  PredictionForm.formData
    (state_of (@PredictionForm.handleInputChange Examples.host "Age" "45"
                 (state_of (@PredictionForm.handleInputChange Examples.host "BMI" "28"
                              PredictionForm.initial))))
  = PredictionForm.formData
      (state_of (@PredictionForm.handleInputChange Examples.host "BMI" "28"
                   (state_of (@PredictionForm.handleInputChange Examples.host "Age" "45"
                                PredictionForm.initial)))).
Proof.
  apply (f_equal PredictionForm.formData).
  apply (@input_changes_compose Examples.host PredictionForm.initial
           "BMI" "Age" "28" "45").
  - apply list_elem_of_further, list_elem_of_further, list_elem_of_further,
      list_elem_of_here.
  - apply list_elem_of_further, list_elem_of_further, list_elem_of_further,
      list_elem_of_further, list_elem_of_here.
  - discriminate.
Defined.

(** *** The rows of the history *)

(** X5: the list under "Recent Predictions" shows the last ten entries at
    most, latest first: the entry at index [i] of [n] is the row at index
    [n - 1 - i] when that is below ten and is not shown otherwise; the first
    row is the entry whose prediction the "Latest Prediction" tile shows, and
    the first point of the trend is made from that same entry. *)
Theorem recent_rows_latest_first `{Host} (d : PredictionHistory.HistoryData) (i : nat)
    (log : PredictionHistory.PredictionLog) :
  PredictionHistory.recent_predictions d !! i = Some log ->
  let n := length (PredictionHistory.recent_predictions d) in
  length (PredictionHistory.recentRows d) = (n `min` 10)%nat
  /\ PredictionHistory.recentRows d !! (n - 1 - i)%nat
     = (if decide (n - 1 - i < 10)%nat then Some log else None)
  /\ PredictionHistory.prediction <$> head (PredictionHistory.recentRows d)
     = PredictionHistory.latestPrediction d
  /\ head (PredictionHistory.chartData d)
     = PredictionHistory.chartPoint (n - 1) <$> head (PredictionHistory.recentRows d).
Proof.
  intros Hlog n. pose proof (lookup_lt_Some _ _ _ Hlog) as Hi. fold n in Hi.
  unfold PredictionHistory.recentRows, PredictionHistory.latestPrediction,
    PredictionHistory.chartData.
  assert (Hrev : forall j, (j < n)%nat ->
            reverse (PredictionHistory.recent_predictions d) !! j
            = PredictionHistory.recent_predictions d !! (n - S j)%nat).
  { intros j Hj. now apply reverse_lookup. }
  split; [rewrite length_take, length_reverse; fold n; lia|]. split; [|split].
  - case_decide as Hshown.
    + rewrite lookup_take_lt by exact Hshown. rewrite Hrev by lia.
      replace (n - S (n - 1 - i))%nat with i by lia. exact Hlog.
    + apply lookup_ge_None. rewrite length_take. lia.
  - rewrite !head_lookup, last_lookup. f_equal.
    rewrite lookup_take_lt by lia. rewrite Hrev by lia.
    fold n. f_equal. lia.
  - rewrite !head_lookup.
    rewrite lookup_take_lt by lia. rewrite Hrev by lia.
    rewrite reverse_lookup by (rewrite length_imap; fold n; lia).
    rewrite length_imap, list_lookup_imap. fold n.
    reflexivity.
Qed.

Lemma recent_rows_latest_first_witness :
  PredictionHistory.recentRows
    (Examples.history 2 [Examples.log 0.2; Examples.log 0.8]) !! 0%nat
  = Some (Examples.log 0.8).
Proof.
  apply (@recent_rows_latest_first Examples.host
           (Examples.history 2 [Examples.log 0.2; Examples.log 0.8]) 1 (Examples.log 0.8)).
  reflexivity.
Defined.

(** X6: clearing the history.  When the DELETE request is rejected or is
    answered with a status that is not ok, the view's state is left as it
    was, nothing is reloaded and the toast drops the cause; when it is
    answered ok, one reload is sent, and once that reload is answered the
    view shows what the answer holds and nothing of the data it held
    before. *)
Theorem clear_history_reloads `{Host} {A} (s : PredictionHistory.State)
    (r : Settled A) (reloaded : PredictionHistory.HistoryData) :
  let cleared := PredictionHistory.handleClearHistory_settled r s in
  match r with
  | inr response =>
      if ok response then
        requests (effects_of cleared)
        = [{| url := "http://127.0.0.1:8000/history?limit=50"; method := "GET";
              headers := []; body := None |}]
        /\ PredictionHistory.render (state_of cleared) = PredictionHistory.Spinner
        /\ PredictionHistory.render
             (state_of (PredictionHistory.fetchHistory_settled (succeeded reloaded)
                          (state_of cleared)))
           = PredictionHistory.render (Examples.loaded reloaded)
      else
        state_of cleared = s /\ requests (effects_of cleared) = []
        /\ toasts (effects_of cleared)
           = [{| title := "Error"; description := "Failed to clear history";
                 variant := Some "destructive" |}]
  | inl _ =>
      state_of cleared = s /\ requests (effects_of cleared) = []
      /\ toasts (effects_of cleared)
         = [{| title := "Error"; description := "Failed to clear history";
               variant := Some "destructive" |}]
  end.
Proof.
  intros cleared. subst cleared.
  unfold PredictionHistory.handleClearHistory_settled.
  destruct r as [err | response]; [now destruct s|].
  destruct (ok response); cbn; [|now destruct s].
  repeat split.
Qed.

(** *** The risk map beyond the three tiers *)

(** X7: for any list of entries, the number shown after "Low Risk" is the
    number of entries whose level is neither "High" nor "Medium": it is
    never negative, and an entry with any other level, which gets the
    "outline" badge, is counted in it. *)
Theorem low_count_is_the_rest (data : list RiskAssessment.RiskAssessmentData) :
  RiskAssessment.lowRiskShown data
  = Z.of_nat (length (filter (fun d => RiskAssessment.risk_level d <> "High"
                                       /\ RiskAssessment.risk_level d <> "Medium") data))
  /\ 0 <= RiskAssessment.lowRiskShown data <= Z.of_nat (length data)
  /\ (forall d, d ∈ data ->
        RiskAssessment.getRiskColor (RiskAssessment.risk_level d) = "outline" ->
        1 <= RiskAssessment.lowRiskShown data).
Proof.
  assert (Hrest : RiskAssessment.lowRiskShown data
                  = Z.of_nat (length (filter (fun d => RiskAssessment.risk_level d <> "High"
                                    /\ RiskAssessment.risk_level d <> "Medium") data))).
  { unfold RiskAssessment.lowRiskShown, RiskAssessment.highRiskCount,
      RiskAssessment.mediumRiskCount.
    induction data as [|d data IH]; [reflexivity|].
    rewrite !filter_cons. cbn [length].
    repeat case_decide; cbn [length]; try lia; try tauto; congruence. }
  split; [exact Hrest|]. split.
  - rewrite Hrest. pose proof (length_filter
      (fun d => RiskAssessment.risk_level d <> "High"
                /\ RiskAssessment.risk_level d <> "Medium") data). lia.
  - intros d Hd Hcolor. rewrite Hrest.
    assert (Hin : d ∈ filter (fun d => RiskAssessment.risk_level d <> "High"
                               /\ RiskAssessment.risk_level d <> "Medium") data).
    { apply list_elem_of_filter. split; [|exact Hd].
      unfold RiskAssessment.getRiskColor in Hcolor.
      repeat case_decide; try discriminate. split; assumption. }
    destruct (filter _ data); [by apply elem_of_nil in Hin | cbn [length]; lia].
Qed.

Lemma low_count_is_the_rest_witness :
  1 <= RiskAssessment.lowRiskShown
         [Examples.risk "Glucose" "High"; Examples.risk "BMI" "Unknown"].
Proof.
  apply (proj2 (proj2 (low_count_is_the_rest
                         [Examples.risk "Glucose" "High"; Examples.risk "BMI" "Unknown"]))
           (Examples.risk "BMI" "Unknown")).
  - apply list_elem_of_further, list_elem_of_here.
  - reflexivity.
Defined.

(** *** Splitting a recommendation *)

Lemma split_from_nonempty (sep : string) (k : nat) (s : string) :
  JS.split_from sep k s <> [].
Proof.
  revert k. induction s as [|c s IH]; intros k; cbn [JS.split_from]; [discriminate|].
  destruct k; [|apply IH].
  destruct (String.prefix sep (String c s)); [discriminate|].
  destruct (JS.split_from sep 0 s); discriminate.
Qed.

Lemma join_cons (sep piece : string) (pieces : list string) :
  pieces <> [] -> JS.join sep (piece :: pieces) = piece +:+ sep +:+ JS.join sep pieces.
Proof. now destruct pieces. Qed.

Lemma prefix_split (p s : string) :
  String.prefix p s = true -> exists t, s = p +:+ t.
Proof.
  revert s. induction p as [|c p IH]; intros s Hp; [now exists s|].
  destruct s as [|c' s]; [discriminate|]. cbn in Hp.
  destruct (Ascii.ascii_dec c c') as [<- | ]; [|discriminate].
  destruct (IH s Hp) as [t ->]. now exists t.
Qed.

(** Joining what [split] gives, after [u] has been passed over, gives back
    what follows [u]. *)
Lemma join_split_from (sep : string) :
  sep <> "" ->
  forall s u t, s = u +:+ t ->
    JS.join sep (JS.split_from sep (String.length u) s) = t.
Proof.
  intros Hsep. induction s as [|c s IH]; intros u t E.
  - destruct u, t; try discriminate. reflexivity.
  - destruct u as [|c' u].
    + change (String c s = t) in E. subst t. cbn [String.length JS.split_from].
      destruct (String.prefix sep (String c s)) eqn:Hp.
      * destruct (prefix_split _ _ Hp) as [t E].
        destruct sep as [|c0 sep]; [done|].
        change (String c s = String c0 (sep +:+ t)) in E. injection E as -> ->.
        rewrite join_cons by apply split_from_nonempty.
        cbn [String.length].
        replace (S (String.length sep) - 1)%nat with (String.length sep) by lia.
        rewrite (IH sep t eq_refl). reflexivity.
      * pose proof (IH "" s eq_refl) as Hs. cbn [String.length] in Hs.
        pose proof (split_from_nonempty sep 0 s) as Hne.
        destruct (JS.split_from sep 0 s) as [|piece pieces]; [done|].
        destruct pieces; cbn in *; now subst.
    + change (String c s = String c' (u +:+ t)) in E. injection E as <- ->.
      cbn [String.length JS.split_from].
      now apply IH.
Qed.

Lemma prefix_here (text : string) : String.prefix "] " ("] " +:+ text) = true.
Proof. cbv [String.append]. cbn. now destruct text. Qed.

Lemma split_before (a text : string) :
  Text.lacks Text.closing_bracket a = true ->
  JS.split "] " (a +:+ "] " +:+ text) = a :: JS.split "] " text.
Proof.
  unfold JS.split. induction a as [|c a IH]; intros Ha.
  - change ("" +:+ "] " +:+ text) with (String Text.closing_bracket (" " +:+ text)).
    cbn [JS.split_from].
    change (String Text.closing_bracket (" " +:+ text)) with ("] " +:+ text).
    rewrite (prefix_here text). reflexivity.
  - cbn [Text.lacks] in Ha. apply andb_true_iff in Ha as [Hc Ha].
    change (String c a +:+ "] " +:+ text) with (String c (a +:+ "] " +:+ text)).
    cbn [JS.split_from]. rewrite (IH Ha).
    replace (String.prefix "] " (String c (a +:+ "] " +:+ text))) with false;
      [reflexivity|].
    cbn [String.prefix].
    destruct (Ascii.ascii_dec _ c) as [<- | ]; [|reflexivity].
    now rewrite Ascii.eqb_refl in Hc.
Qed.

(** X8: splitting a recommendation loses nothing, [rec.split("] ")] joined
    with ["] "] being [rec] again; and a recommendation written as a bracket,
    a category without a closing bracket in it, a closing bracket, a space
    and a text is shown as that category and that text, whatever brackets
    the text itself holds. *)
Theorem recommendation_round_trip (rec category text : string) :
  JS.join "] " (JS.split "] " rec) = rec
  /\ (Text.lacks Text.closing_bracket category = true ->
      DetailedAnalysis.splitRecommendation ("[" +:+ category +:+ "] " +:+ text)
      = (category, text)).
Proof.
  split.
  - apply (join_split_from "] " ltac:(discriminate) rec "" rec eq_refl).
  - intros Hcat. unfold DetailedAnalysis.splitRecommendation.
    change ("[" +:+ category +:+ "] " +:+ text)
      with (("[" +:+ category) +:+ "] " +:+ text).
    rewrite split_before by exact Hcat.
    f_equal.
    + now destruct category.
    + apply (join_split_from "] " ltac:(discriminate) text "" text eq_refl).
Qed.

Lemma recommendation_round_trip_witness :
  DetailedAnalysis.splitRecommendation
    ("[" +:+ "Diet" +:+ "] " +:+ "Eat less sugar [daily] and rest")
  = ("Diet", "Eat less sugar [daily] and rest").
Proof.
  apply (recommendation_round_trip "" "Diet" "Eat less sugar [daily] and rest").
  reflexivity.
Defined.

(** *** A failure outlives later answers *)

(** X9: in the analysis view only a new run of the effect clears the error
    text.  Once a response has failed with a message that is not empty, the
    view shows that message, also after a later response has succeeded and
    its data has been stored; the next run of the effect shows the spinner
    and sends the request for its input. *)
Theorem failure_outlives_success (s : DetailedAnalysis.State)
    (failure : Settled DetailedAnalysis.DetailedPrediction) (err : Thrown)
    (later : DetailedAnalysis.DetailedPrediction) (next : PredictionData) :
  attempt "Failed to fetch detailed analysis" failure = inl err ->
  message_or err "Failed to load analysis" <> "" ->
  let failed := state_of (DetailedAnalysis.fetchDetailedPrediction_settled failure s) in
  let answered :=
    state_of (DetailedAnalysis.fetchDetailedPrediction_settled (succeeded later) failed) in
  DetailedAnalysis.render failed
    = DetailedAnalysis.ErrorAlert (message_or err "Failed to load analysis")
  /\ DetailedAnalysis.data answered = Some later
  /\ DetailedAnalysis.render answered
     = DetailedAnalysis.ErrorAlert (message_or err "Failed to load analysis")
  /\ DetailedAnalysis.render
       (state_of (DetailedAnalysis.fetchDetailedPrediction next answered))
     = DetailedAnalysis.Spinner
  /\ requests (effects_of (DetailedAnalysis.fetchDetailedPrediction next answered))
     = [post "/predict/detailed" next].
Proof.
  intros Hfail Hmsg failed answered. subst failed answered.
  unfold DetailedAnalysis.fetchDetailedPrediction_settled. rewrite Hfail.
  cbn. unfold DetailedAnalysis.render, JS.or_str, JS.not_str. cbn.
  rewrite (bool_decide_eq_false_2 _ Hmsg). cbn.
  destruct (DetailedAnalysis.data s); repeat split.
Qed.

Lemma failure_outlives_success_witness :
  DetailedAnalysis.render
    (state_of (DetailedAnalysis.fetchDetailedPrediction_settled
                 (succeeded Examples.detailedB)
                 (state_of (DetailedAnalysis.fetchDetailedPrediction_settled
                              (inl (ErrorObj "Failed to fetch"))
                              DetailedAnalysis.initial))))
  = DetailedAnalysis.ErrorAlert "Failed to fetch".
Proof.
  apply (failure_outlives_success DetailedAnalysis.initial
           (inl (ErrorObj "Failed to fetch")) (ErrorObj "Failed to fetch")
           Examples.detailedB Examples.inputA eq_refl).
  discriminate.
Defined.

(** *** The model page loads both or neither *)

Lemma attempt_both_ok (stats_first : bool) (m : Settled ModelInfo.ModelMetadata)
    (s : Settled ModelInfo.APIStats) (model : ModelInfo.ModelMetadata)
    (stats : ModelInfo.APIStats) :
  ModelInfo.attempt_both stats_first m s = inr (model, stats)
  <-> m = succeeded model /\ s = succeeded stats.
Proof.
  unfold ModelInfo.attempt_both, ModelInfo.all, succeeded. split.
  - destruct m as [em | [okm jm]], s as [es | [oks js]]; try discriminate.
    cbn. destruct okm, oks; cbn; try discriminate.
    destruct jm as [? | model']; [discriminate|].
    destruct js as [? | stats']; [discriminate|].
    now intros [= -> ->].
  - now intros [-> ->].
Qed.

(** X10: the model page sends its two requests together and, once they have
    settled, shows the model and the statistics exactly when both requests
    were answered ok with bodies that decode; in every other case it stores
    neither of the two and shows an alert, with the message of the failure
    or, when that is empty, "No data available".  The spinner is gone either
    way. *)
Theorem model_page_loads_both_or_neither (stats_first : bool)
    (m : Settled ModelInfo.ModelMetadata) (s : Settled ModelInfo.APIStats) :
  let sent := ModelInfo.fetchData ModelInfo.initial in
  let settled := state_of (ModelInfo.fetchData_settled stats_first m s (state_of sent)) in
  requests (effects_of sent)
    = [ModelInfo.get_ "/model_info"; ModelInfo.get_ "/stats"]
  /\ ModelInfo.loading settled = false
  /\ (ModelInfo.modelData settled = None <-> ModelInfo.statsData settled = None)
  /\ (forall model stats,
        ModelInfo.render settled = ModelInfo.Info model stats
        <-> m = succeeded model /\ s = succeeded stats)
  /\ (forall err,
        ModelInfo.attempt_both stats_first m s = inl err ->
        ModelInfo.modelData settled = None
        /\ ModelInfo.render settled
           = ModelInfo.ErrorAlert
               (JS.or_str (message_or err "Failed to load data") "No data available")).
Proof.
  intros sent settled. subst sent settled.
  split; [reflexivity|].
  unfold ModelInfo.fetchData_settled.
  destruct (ModelInfo.attempt_both stats_first m s) as [err | [model stats]] eqn:Hboth.
  - cbn. split; [reflexivity|]. split; [tauto|]. split.
    + intros model stats. rewrite <- attempt_both_ok, Hboth.
      unfold ModelInfo.render. cbn. split; discriminate.
    + intros err' [= <-]. split; reflexivity.
  - cbn. split; [reflexivity|]. split; [split; discriminate|]. split.
    + intros model' stats'. rewrite <- attempt_both_ok, Hboth.
      unfold ModelInfo.render. cbn. split; intros [= -> ->]; reflexivity.
    + discriminate.
Qed.

Lemma model_page_loads_both_or_neither_witness :
  ModelInfo.render
    (state_of (ModelInfo.fetchData_settled false
                 (inl (ErrorObj "")) (inl NotAnError)
                 (state_of (ModelInfo.fetchData ModelInfo.initial))))
  = ModelInfo.ErrorAlert "No data available".
Proof.
  apply (proj2 (proj2 (proj2 (proj2
           (model_page_loads_both_or_neither false (inl (ErrorObj "")) (inl NotAnError)))))
           (ErrorObj "")).
  reflexivity.
Defined.

(** *** Every message gets its reply *)

Section Advisor.
Variable numberToString : JS.number -> string.

Lemma said_by_app (who : string) (ms ms' : list AIAdvisor.Message) :
  AIAdvisor.said_by who (ms ++ ms')
  = (AIAdvisor.said_by who ms + AIAdvisor.said_by who ms')%nat.
Proof. unfold AIAdvisor.said_by. now rewrite filter_app, length_app. Qed.

Lemma said_by_one (who : string) (m : AIAdvisor.Message) :
  AIAdvisor.said_by who [m] = if decide (AIAdvisor.role m = who) then 1%nat else 0%nat.
Proof.
  unfold AIAdvisor.said_by. rewrite filter_cons, filter_nil.
  now case_decide.
Qed.

Lemma advisor_step (s : AIAdvisor.State) (e : AIAdvisor.Event) :
  AIAdvisor.said_by "user" (AIAdvisor.messages s)
  = (AIAdvisor.said_by "assistant" (AIAdvisor.messages s)
     + length (AIAdvisor.timers s))%nat ->
  let s' := AIAdvisor.step numberToString s e in
  AIAdvisor.said_by "user" (AIAdvisor.messages s')
  = (AIAdvisor.said_by "assistant" (AIAdvisor.messages s')
     + length (AIAdvisor.timers s'))%nat
  /\ AIAdvisor.messages s `prefix_of` AIAdvisor.messages s'.
Proof.
  intros Hinv s'. subst s'.
  destruct e as [text | quick | current | ]; cbn [AIAdvisor.step].
  - split; [exact Hinv | reflexivity].
  - split; [exact Hinv | reflexivity].
  - unfold AIAdvisor.handleSendMessage.
    destruct (JS.blank (AIAdvisor.prompt s)); [split; [exact Hinv | reflexivity]|].
    cbn [AIAdvisor.messages AIAdvisor.timers].
    split; [|now apply prefix_app_r].
    rewrite !said_by_app, !said_by_one, length_app, Hinv. cbn [AIAdvisor.role length].
    repeat case_decide; try discriminate; try congruence; lia.
  - unfold AIAdvisor.timeout.
    destruct (AIAdvisor.timers s) as [|current rest] eqn:Ht;
      [split; [now rewrite Ht | reflexivity]|].
    cbn [AIAdvisor.messages AIAdvisor.timers].
    split; [|now apply prefix_app_r].
    rewrite !said_by_app, !said_by_one, Hinv. cbn [AIAdvisor.role length].
    repeat case_decide; try discriminate; try congruence; lia.
Qed.

Lemma advisor_run (events : list AIAdvisor.Event) (s : AIAdvisor.State) :
  AIAdvisor.said_by "user" (AIAdvisor.messages s)
  = (AIAdvisor.said_by "assistant" (AIAdvisor.messages s)
     + length (AIAdvisor.timers s))%nat ->
  let s' := AIAdvisor.run numberToString events s in
  AIAdvisor.said_by "user" (AIAdvisor.messages s')
  = (AIAdvisor.said_by "assistant" (AIAdvisor.messages s')
     + length (AIAdvisor.timers s'))%nat
  /\ AIAdvisor.messages s `prefix_of` AIAdvisor.messages s'.
Proof.
  revert s. induction events as [|e events IH]; intros s Hinv; cbn.
  - split; [exact Hinv | reflexivity].
  - destruct (advisor_step s e Hinv) as [Hstep Hpre].
    destruct (IH _ Hstep) as [Hrun Hpre'].
    split; [exact Hrun | now transitivity
      (AIAdvisor.messages (AIAdvisor.step numberToString s e))].
Qed.

Lemma advisor_drain (s : AIAdvisor.State) :
  AIAdvisor.timers
    (AIAdvisor.run numberToString
       (replicate (length (AIAdvisor.timers s)) AIAdvisor.Timeout) s) = [].
Proof.
  remember (length (AIAdvisor.timers s)) as n eqn:Hn. revert s Hn.
  induction n as [|n IH]; intros s Hn; cbn.
  - now destruct (AIAdvisor.timers s).
  - apply IH. unfold AIAdvisor.timeout.
    destruct (AIAdvisor.timers s) as [|c rest]; [discriminate|].
    cbn in *. lia.
Qed.

(** Timers add no message of the user. *)
Lemma timeouts_add_no_question (n : nat) (s : AIAdvisor.State) :
  AIAdvisor.said_by "user"
    (AIAdvisor.messages (AIAdvisor.run numberToString (replicate n AIAdvisor.Timeout) s))
  = AIAdvisor.said_by "user" (AIAdvisor.messages s).
Proof.
  revert s. induction n as [|n IH]; intros s; [reflexivity|].
  change (AIAdvisor.run numberToString (replicate (S n) AIAdvisor.Timeout) s)
    with (AIAdvisor.run numberToString (replicate n AIAdvisor.Timeout)
            (AIAdvisor.timeout numberToString s)).
  rewrite IH. unfold AIAdvisor.timeout.
  destruct (AIAdvisor.timers s); [reflexivity|]. cbn [AIAdvisor.messages].
  rewrite said_by_app, said_by_one. cbn [AIAdvisor.role].
  case_decide; [discriminate | lia].
Qed.

End Advisor.

(** X11: in the advisor, whatever is typed, sent and timed out, in any
    order, starting from the empty conversation: the messages already shown
    stay, in place, at the head of the list; the messages of the user are as
    many as the replies shown and the replies still due together; a prompt
    of white space only sends nothing; and once the timers still due have
    fired, every message of the user has its reply. *)
Theorem every_message_is_answered (numberToString : JS.number -> string)
    (events more : list AIAdvisor.Event) :
  let s := AIAdvisor.run numberToString events AIAdvisor.initial in
  let later := AIAdvisor.run numberToString more s in
  let drained :=
    AIAdvisor.run numberToString
      (replicate (length (AIAdvisor.timers s)) AIAdvisor.Timeout) s in
  AIAdvisor.said_by "user" (AIAdvisor.messages s)
  = (AIAdvisor.said_by "assistant" (AIAdvisor.messages s)
     + length (AIAdvisor.timers s))%nat
  /\ AIAdvisor.messages s `prefix_of` AIAdvisor.messages later
  /\ (forall current, JS.blank (AIAdvisor.prompt s) = true ->
        AIAdvisor.handleSendMessage current s = s)
  /\ AIAdvisor.said_by "user" (AIAdvisor.messages drained)
     = AIAdvisor.said_by "assistant" (AIAdvisor.messages drained)
  /\ AIAdvisor.said_by "user" (AIAdvisor.messages drained)
     = AIAdvisor.said_by "user" (AIAdvisor.messages s).
Proof.
  intros s later drained.
  destruct (advisor_run numberToString events AIAdvisor.initial eq_refl) as [Hs _].
  fold s in Hs.
  split; [exact Hs|]. split; [apply (advisor_run numberToString more s Hs)|].
  split.
  { intros current Hblank. unfold AIAdvisor.handleSendMessage. now rewrite Hblank. }
  destruct (advisor_run numberToString
              (replicate (length (AIAdvisor.timers s)) AIAdvisor.Timeout) s Hs)
    as [Hd _].
  fold drained in Hd.
  assert (Hempty : AIAdvisor.timers drained = []) by apply advisor_drain.
  rewrite Hempty in Hd. cbn in Hd.
  split; [lia | apply timeouts_add_no_question].
Qed.

Lemma every_message_is_answered_witness :
  AIAdvisor.handleSendMessage None
    (AIAdvisor.run (fun _ => "") [AIAdvisor.Typed "   "] AIAdvisor.initial)
  = AIAdvisor.run (fun _ => "") [AIAdvisor.Typed "   "] AIAdvisor.initial.
Proof.
  apply (proj1 (proj2 (proj2 (every_message_is_answered (fun _ => "")
                                [AIAdvisor.Typed "   "] [])))).
  reflexivity.
Defined.

(** *** What the what-if alert depends on *)

(** X12: the alert of the what-if view comes from the last analysis that
    succeeded and from nothing else: choosing another feature, typing another
    value, starting an analysis and an analysis that fails all leave it as it
    is, so it goes on describing a scenario that is no longer the one
    selected; an analysis that succeeds replaces it by the alert of its
    result. *)
Theorem alert_follows_last_success (s : WhatIfAnalysis.State)
    (feature value : string) (initialData : PredictionData)
    (r : Settled WhatIfAnalysis.WhatIfResult) :
  WhatIfAnalysis.renderAlert (state_of (WhatIfAnalysis.setSelectedFeature feature s))
    = WhatIfAnalysis.renderAlert s
  /\ WhatIfAnalysis.renderAlert (state_of (WhatIfAnalysis.setNewValue value s))
     = WhatIfAnalysis.renderAlert s
  /\ WhatIfAnalysis.renderAlert (state_of (WhatIfAnalysis.handleAnalyze initialData s))
     = WhatIfAnalysis.renderAlert s
  /\ WhatIfAnalysis.renderAlert
       (state_of (WhatIfAnalysis.handleAnalyze_settled feature r s))
     = match attempt "Failed to perform what-if analysis" r with
       | inr data => WhatIfAnalysis.renderAlert (Examples.whatif_with feature value (Some data))
       | inl _ => WhatIfAnalysis.renderAlert s
       end.
Proof.
  repeat split.
  - unfold WhatIfAnalysis.handleAnalyze. handler.
    now destruct (JS.not_str (WhatIfAnalysis.newValue s)).
  - unfold WhatIfAnalysis.handleAnalyze_settled.
    now destruct (attempt _ r).
Qed.
